(** * Labeled binary-corpus generation pipeline of crypto_finder

    A shallow embedding of the [dataset_builder] package
    (library_manager.py, cross_compiler.py, function_extractor.py,
    auto_labeler.py) and the properties of its labeling, extraction,
    acquisition and build-matrix code.

    Python text is modelled as ASCII [string]s; dictionaries are [gmap]s
    (or association lists where the iteration order is observable);
    calls into the operating system go through the [OS] interface and are
    recorded in a trace. Logging and progress bars are not modelled. *)

From Stdlib Require Import ZArith Ascii String List Bool Lia.
From Stdlib Require Strings.Byte.
From stdpp Require Import base option list strings gmap fin_maps.

#[global] Instance byte_eq_dec : EqDecision Byte.byte := Strings.Byte.byte_eq_dec.

Local Open Scope string_scope.

(** ** Python string primitives *)

Module Py.

(** [c.lower()] on one ASCII character. *)
Definition lower_ascii (c : ascii) : ascii :=
  let n := nat_of_ascii c in
  if (65 <=? n)%nat && (n <=? 90)%nat then ascii_of_nat (n + 32) else c.

(** [s.lower()] on ASCII text: the capital letters [A]-[Z] are folded,
    every other character is kept. *)
Fixpoint lower (s : string) : string :=
  match s with
  | EmptyString => EmptyString
  | String c r => String (lower_ascii c) (lower r)
  end.

(** [s.split(sep)] for a one-character separator: never returns the
    empty list, [''.split('_') == ['']]. *)
Fixpoint split (sep : ascii) (s : string) : list string :=
  match s with
  | EmptyString => [EmptyString]
  | String c r =>
      if Ascii.eqb c sep then EmptyString :: split sep r
      else match split sep r with
           | h :: t => String c h :: t
           | [] => [String c EmptyString]
           end
  end.

(** [sep.join(l)] *)
Fixpoint join (sep : string) (l : list string) : string :=
  match l with
  | [] => EmptyString
  | [x] => x
  | x :: r => x +:+ sep +:+ join sep r
  end.

(** [s.startswith(p)] *)
Fixpoint startswith (p s : string) : bool :=
  match p, s with
  | EmptyString, _ => true
  | String a p', String b s' => Ascii.eqb a b && startswith p' s'
  | String _ _, EmptyString => false
  end.

(** [k in s] for strings: [k] occurs in [s] as a contiguous substring. *)
Fixpoint contains (k s : string) : bool :=
  startswith k s ||
  match s with
  | EmptyString => false
  | String _ r => contains k r
  end.

(** [c in s] for a one-character [c]. *)
Fixpoint has_char (c : ascii) (s : string) : bool :=
  match s with
  | EmptyString => false
  | String a r => Ascii.eqb a c || has_char c r
  end.

(** [s.replace(c, '')] for a one-character [c]. *)
Fixpoint remove_char (c : ascii) (s : string) : string :=
  match s with
  | EmptyString => EmptyString
  | String a r =>
      if Ascii.eqb a c then remove_char c r else String a (remove_char c r)
  end.

(** [s.rfind(c)] for a one-character [c]: the last index, or [None] for
    Python's [-1]. *)
Fixpoint rfind (c : ascii) (s : string) : option nat :=
  match s with
  | EmptyString => None
  | String a r =>
      match rfind c r with
      | Some i => Some (S i)
      | None => if Ascii.eqb a c then Some 0%nat else None
      end
  end.

(** [s[:i]] and [s[i:]] *)
Fixpoint take (i : nat) (s : string) : string :=
  match i, s with
  | S i', String a r => String a (take i' r)
  | _, _ => EmptyString
  end.

Fixpoint drop (i : nat) (s : string) : string :=
  match i, s with
  | S i', String _ r => drop i' r
  | _, _ => s
  end.

(** [s.endswith(c)] and [s.lstrip(c)] for a one-character [c]. *)
Fixpoint endswith_char (c : ascii) (s : string) : bool :=
  match s with
  | EmptyString => false
  | String a EmptyString => Ascii.eqb a c
  | String _ r => endswith_char c r
  end.

Fixpoint lstrip_char (c : ascii) (s : string) : string :=
  match s with
  | String a r => if Ascii.eqb a c then lstrip_char c r else s
  | EmptyString => EmptyString
  end.

(** ASCII whitespace, as [str.split()] and [int()] see it (the
    whitespace characters beyond ASCII are outside this model). *)
Definition is_space (c : ascii) : bool :=
  let n := nat_of_ascii c in
  ((9 <=? n)%nat && (n <=? 13)%nat) || ((28 <=? n)%nat && (n <=? 32)%nat).

(** [s.split()]: runs of whitespace separate the fields, no empty field
    is produced. [cur] is the field being read, reversed. *)
Fixpoint split_ws_go (cur : list ascii) (s : string) : list string :=
  let flush (k : list string) :=
    match cur with
    | [] => k
    | _ => string_of_list_ascii (rev cur) :: k
    end in
  match s with
  | EmptyString => flush []
  | String c r =>
      if is_space c then flush (split_ws_go [] r)
      else split_ws_go (c :: cur) r
  end.

Definition split_ws (s : string) : list string := split_ws_go [] s.

(** The truth value of a string: [if s] holds unless [s] is empty. *)
Definition truthy (s : string) : bool :=
  match s with EmptyString => false | _ => true end.

(** The truth value of an [Optional[str]] argument. *)
Definition truthy_opt (o : option string) : bool :=
  match o with Some s => truthy s | None => false end.

End Py.

(** ** pathlib (POSIX flavour)

    A path is kept in parsed form: a root (empty, [/] or [//]) and the
    list of its components. *)

Module PathLib.

Record Path := mkPath { root : string; tail : list string }.

(** [posixpath.splitroot] *)
Definition splitroot (p : string) : string * string :=
  match p with
  | String "/" (String "/" (String "/" r)) => ("/", String "/" (String "/" r))
  | String "/" (String "/" r) => ("//", r)
  | String "/" r => ("/", r)
  | _ => ("", p)
  end.

(** The components of the relative part: empty ones and [.] are dropped. *)
Definition parse_tail (rel : string) : list string :=
  filter (fun x => x ≠ "" ∧ x ≠ ".") (Py.split "/" rel).

(** [Path(s)] *)
Definition of_str (s : string) : Path :=
  let '(rt, rel) := splitroot s in mkPath rt (parse_tail rel).

(** [str(p)] *)
Definition to_str (p : Path) : string :=
  match root p, tail p with
  | EmptyString, [] => "."
  | rt, tl => rt +:+ Py.join "/" tl
  end.

(** [p / key]: an absolute [key] replaces [p]. *)
Definition joinpath (p : Path) (key : string) : Path :=
  if Py.startswith "/" key then of_str key
  else mkPath (root p) (tail p ++ parse_tail key)%list.

(** [p.parent] *)
Definition parent (p : Path) : Path :=
  match tail p with
  | [] => p
  | tl => mkPath (root p) (removelast tl)
  end.

(** [p.name] *)
Definition name (p : Path) : string := List.last (tail p) "".

(** [p.suffix]: the last dot and what follows, unless the dot is the
    first or the last character of the name. *)
Definition suffix (p : Path) : string :=
  let nm := name p in
  match Py.rfind "." nm with
  | Some i =>
      if (0 <? i)%nat && (i <? String.length nm - 1)%nat
      then Py.drop i nm else ""
  | None => ""
  end.

(** [p.stem] *)
Definition stem (p : Path) : string :=
  let nm := name p in
  match Py.rfind "." nm with
  | Some i =>
      if (0 <? i)%nat && (i <? String.length nm - 1)%nat
      then Py.take i nm else nm
  | None => nm
  end.

(** [p.suffixes] *)
Definition suffixes (p : Path) : list string :=
  let nm := name p in
  if Py.endswith_char "." nm then []
  else
    map (fun x => "." +:+ x)
        (List.tl (Py.split "." (Py.lstrip_char "." nm))).

End PathLib.

(** ** Python values held in the function and label dictionaries *)

Inductive atom :=
| AInt (n : Z)
| AStr (s : string)
| ABool (b : bool).

Inductive pyval :=
| Atom (a : atom)
| Dict (d : gmap string atom).

(** ** auto_labeler.py *)

Module AutoLabeler.

(** [ALGORITHM_MAP], in the order of the dict literal (the order in which
    [.items()] yields it). *)
Definition ALGORITHM_MAP : list (string * string) :=
  [ ("aes", "AES"); ("des", "DES"); ("3des", "3DES");
    ("chacha", "ChaCha20"); ("blowfish", "Blowfish");
    ("twofish", "Twofish");
    ("rsa", "RSA"); ("dsa", "DSA"); ("dh", "DH"); ("ecdh", "ECDH");
    ("ecdsa", "ECDSA"); ("ecc", "ECC");
    ("sha1", "SHA-1"); ("sha224", "SHA-224"); ("sha256", "SHA-256");
    ("sha384", "SHA-384"); ("sha512", "SHA-512"); ("sha3", "SHA-3");
    ("md5", "MD5"); ("blake", "BLAKE");
    ("hmac", "HMAC"); ("cmac", "CMAC"); ("gmac", "GMAC");
    ("pbkdf2", "PBKDF2"); ("hkdf", "HKDF"); ("scrypt", "Scrypt") ].

(** The [for key, value in ...items()] loop of [_detect_algorithm]. *)
Fixpoint detect_loop (items : list (string * string)) (func_lower : string)
  : string :=
  match items with
  | [] => "Unknown"
  | (key, value) :: rest =>
      if Py.contains key func_lower then value
      else detect_loop rest func_lower
  end.

Definition _detect_algorithm (function_name : string) : string :=
  let func_lower := Py.lower function_name in
  detect_loop ALGORITHM_MAP func_lower.

(** The [parts] that [label_function] reads off the binary's file name. *)
Definition filename_parts (binary_path : string) : list string :=
  let binary_name := PathLib.stem (PathLib.of_str binary_path) in
  Py.split "_" binary_name.

(** The dict stored under ['label']; the match is the test
    [len(parts) >= 4] followed by [parts[0]] ... [parts[3]]. *)
Definition make_label (parts : list string) : gmap string atom :=
  match parts with
  | library :: func_name :: architecture :: optimization :: _ =>
      let algorithm := _detect_algorithm func_name in
      <["algorithm" := AStr algorithm]>
      (<["library" := AStr library]>
      (<["architecture" := AStr architecture]>
      (<["optimization" := AStr optimization]>
      (<["function_name" := AStr func_name]>
      (<["is_crypto" := ABool true]> ∅)))))
  | _ =>
      <["algorithm" := AStr "Unknown"]>
      (<["is_crypto" := ABool false]> ∅)
  end.

(** [label_function] stores the label in [function_info] and returns
    that same dictionary. *)
Definition label_function (binary_path : string)
    (function_info : gmap string pyval) : gmap string pyval :=
  <["label" := Dict (make_label (filename_parts binary_path))]> function_info.

(** [label_batch]: [func.copy()] is a fresh dictionary with the entries of
    [func], so each result is built from the caller's entries and the
    caller's dictionaries stay as they were. *)
Definition label_batch (functions : list (gmap string pyval))
    (binary_path : string) : list (gmap string pyval) :=
  map (fun func => label_function binary_path func) functions.

End AutoLabeler.

(** ** Dictionaries whose iteration order is observed

    A Python dict iterates in insertion order; assigning to a key that
    is present keeps its position. *)

Module ODict.
Section Ops.
Context {K V : Type} `{EqDecision K}.

Fixpoint get (k : K) (d : list (K * V)) : option V :=
  match d with
  | [] => None
  | (k', v) :: r => if decide (k' = k) then Some v else get k r
  end.

(** [d[k] = v] *)
Fixpoint set (k : K) (v : V) (d : list (K * V)) : list (K * V) :=
  match d with
  | [] => [(k, v)]
  | (k', v') :: r =>
      if decide (k' = k) then (k, v) :: r else (k', v') :: set k v r
  end.

End Ops.
End ODict.

(** ** Exceptions, the operating system and the state of a run *)

Inductive exn_class :=
| ValueError
| KeyError
| CompilationError
| TimeoutExpired
| OSError
| RequestException.

(** A raised exception: its class and its message. *)
Record exn := Exn { exn_cls : exn_class; exn_msg : string }.

Inductive result (A : Type) :=
| Ok (a : A)
| Raise (e : exn).
Arguments Ok {A} a.
Arguments Raise {A} e.

(** What [subprocess.run(cmd, capture_output=True, text=True, timeout=t)]
    can do: return a completed process, or raise. *)
Inductive proc :=
| Completed (returncode : Z) (stdout stderr : string)
| ProcRaises (e : exn).

(** One compilation's metadata, the value stored per matrix cell. *)
Record binary_info := mkInfo {
  binary_path : string;
  source_path : string;
  architecture : string;
  optimization : string;
  function : string;
  library : string;
  size : Z;
  md5 : string
}.

(** The calls the pipeline makes into the host: file system, network,
    archives, [PATH] lookup, child processes. [W] is the state of the
    host; a call may change it and may raise. *)
Class OS (W : Type) := {
  (** [Path(p).exists()] *)
  path_exists : string -> W -> bool;
  (** [Path(p).mkdir(parents=True, exist_ok=True)] *)
  mkdir_p : string -> W -> result unit * W;
  (** [requests.get(url, stream=True)], [raise_for_status()] and the
      streaming of the body into the file [dest] *)
  http_download : string -> string -> W -> result unit * W;
  (** [tarfile.open(archive, 'r:gz')] and [extractall(dest)] *)
  tar_extractall : string -> string -> W -> result unit * W;
  (** [zipfile.ZipFile(archive, 'r')] and [extractall(dest)] *)
  zip_extractall : string -> string -> W -> result unit * W;
  (** [Path(p).unlink()] *)
  unlink : string -> W -> result unit * W;
  (** [shutil.which(cmd) is not None] *)
  which : string -> W -> bool;
  (** [subprocess.run(cmd, ..., timeout=t)] *)
  subprocess_run : list string -> nat -> W -> proc * W;
  (** [list(Path(dir).rglob(pattern))] *)
  rglob : string -> string -> W -> result (list string);
  (** [Path(p).stat().st_size] *)
  stat_size : string -> W -> result Z;
  (** [Path(p).read_bytes()] *)
  read_bytes : string -> W -> result (list Byte.byte);
  (** [hashlib.md5] of a byte string, as a hex digest *)
  md5_hexdigest : list Byte.byte -> string;
  (** [json.dump(doc, open(p, 'w'), indent=2)] of the metadata document *)
  write_json : string -> list (string * list (string * binary_info)) -> W
               -> result unit * W
}.

(** The host calls that change the host or start a process, in the order
    in which a run makes them. *)
Inductive event :=
| EMkdir (p : string)
| EDownload (url dest : string)
| EUntar (archive dest : string)
| EUnzip (archive dest : string)
| EUnlink (p : string)
| ESpawn (cmd : list string)
| EReadBytes (p : string)
| EWriteJson (p : string).

#[global] Instance event_eq_dec : EqDecision event.
Proof. solve_decision. Defined.

Record state (W : Type) := mkState { world : W; trace : list event }.
Arguments mkState {W} world trace.
Arguments world {W} s.
Arguments trace {W} s.

(** A computation that reads and changes the state of the run and either
    returns or raises. *)
Definition M (W A : Type) : Type := state W -> result A * state W.

Definition ret {W A} (a : A) : M W A := fun st => (Ok a, st).

Definition raise {W A} (e : exn) : M W A := fun st => (Raise e, st).

Definition bind {W A B} (m : M W A) (k : A -> M W B) : M W B :=
  fun st =>
    match m st with
    | (Ok a, st') => k a st'
    | (Raise e, st') => (Raise e, st')
    end.

#[global] Instance M_ret {W} : MRet (M W) := fun A => @ret W A.
#[global] Instance M_bind {W} : MBind (M W) := fun A B k m => @bind W A B m k.

(** [try: m except Exception as e: h e] *)
Definition try_except {W A} (m : M W A) (h : exn -> M W A) : M W A :=
  fun st =>
    match m st with
    | (Ok a, st') => (Ok a, st')
    | (Raise e, st') => h e st'
    end.

(** A host call that changes the host: run it and record the event. *)
Definition call {W A} (ev : event) (op : W -> result A * W) : M W A :=
  fun st =>
    let '(r, w') := op (world st) in
    (r, mkState w' (trace st ++ [ev])%list).

(** A host call that only reads. *)
Definition query {W A} (op : W -> A) : M W A :=
  fun st => (Ok (op (world st)), st).

(** [for x in l: acc = body(acc, x)] *)
Fixpoint for_each {W A B} (l : list A) (body : B -> A -> M W B) (acc : B)
  : M W B :=
  match l with
  | [] => ret acc
  | x :: r => acc' ← body acc x; for_each r body acc'
  end.

(** ** library_manager.py *)

Module LibraryManager.
Section WithOS.
Context {W : Type} `{OS W}.

(** The object: [self.sources_dir]. *)
Record t := mk { sources_dir : PathLib.Path }.

Definition __init__ (dir : string) : M W t :=
  let self := mk (PathLib.of_str dir) in
  let d := PathLib.to_str (sources_dir self) in
  call (EMkdir d) (mkdir_p d);;
  ret self.

(** [_download_file]: the file name is what follows the last [/] of the
    URL. *)
Definition _download_file (self : t) (url : string) : M W PathLib.Path :=
  let filename := List.last (Py.split "/" url) "" in
  let output_path := PathLib.joinpath (sources_dir self) filename in
  let dest := PathLib.to_str output_path in
  call (EDownload url dest) (http_download url dest);;
  ret output_path.

Definition _extract_archive (self : t) (archive_path extract_to : PathLib.Path)
  : M W unit :=
  let a := PathLib.to_str archive_path in
  let d := PathLib.to_str extract_to in
  call (EMkdir d) (mkdir_p d);;
  if bool_decide (PathLib.suffix archive_path = ".gz")
     || bool_decide (PathLib.suffixes archive_path = [".tar"; ".gz"])
  then call (EUntar a d) (tar_extractall a d)
  else if bool_decide (PathLib.suffix archive_path = ".zip")
  then call (EUnzip a d) (zip_extractall a d)
  else raise (Exn ValueError
                ("Unsupported archive format: " +:+ PathLib.suffix archive_path)).

(** The identity-derived cache path of [get_library]. *)
Definition lib_dir_of (self : t) (name : string) (version : option string)
  : PathLib.Path :=
  if Py.truthy_opt version
  then PathLib.joinpath (sources_dir self)
         (name +:+ "-" +:+ default "" version)
  else PathLib.joinpath (sources_dir self) name.

Definition get_library (self : t) (name : string)
    (version url : option string) : M W string :=
  let lib_dir := lib_dir_of self name version in
  cached ← query (path_exists (PathLib.to_str lib_dir));
  if (cached : bool) then ret (PathLib.to_str lib_dir)
  else if Py.truthy_opt url then
    archive_path ← _download_file self (default "" url);
    _extract_archive self archive_path (PathLib.parent lib_dir);;
    call (EUnlink (PathLib.to_str archive_path))
         (unlink (PathLib.to_str archive_path));;
    ret (PathLib.to_str lib_dir)
  else
    raise (Exn ValueError
             ("Library " +:+ name +:+ " not found and no URL provided")).

End WithOS.
End LibraryManager.

(** ** cross_compiler.py: CrossCompiler *)

Module CrossCompiler.

Record arch_config := mkArch {
  cc : string;
  cflags : string;
  triplet : string;
  description : string
}.

(** [ARCHITECTURES], in the order of the dict literal. *)
Definition ARCHITECTURES : list (string * arch_config) :=
  [ ("x86", mkArch "gcc" "-m32" "i686-linux-gnu" "Intel x86 32-bit");
    ("x86-64", mkArch "gcc" "-m64" "x86_64-linux-gnu" "Intel x86 64-bit");
    ("arm", mkArch "arm-linux-gnueabi-gcc" "" "arm-linux-gnueabi" "ARM 32-bit");
    ("aarch64", mkArch "aarch64-linux-gnu-gcc" "" "aarch64-linux-gnu"
                  "ARM 64-bit (AArch64)");
    ("mips", mkArch "mips-linux-gnu-gcc" "" "mips-linux-gnu" "MIPS 32-bit");
    ("riscv", mkArch "riscv64-linux-gnu-gcc" "" "riscv64-linux-gnu"
                "RISC-V 64-bit") ].

Definition OPTIMIZATION_LEVELS : list string :=
  ["-O0"; "-O1"; "-O2"; "-O3"; "-Os"].

Definition COMPILERS : list string := ["gcc"; "clang"].

(** The key of the result dictionary: [(arch, opt, func_name)]. *)
Definition cell : Type := string * string * string.

(** The file name of a matrix cell's binary. *)
Definition output_name (library_name func_name arch opt : string) : string :=
  let opt_clean := Py.lower (Py.remove_char "-" opt) in
  library_name +:+ "_" +:+ func_name +:+ "_" +:+ arch +:+ "_"
    +:+ opt_clean +:+ ".bin".

Section WithOS.
Context {W : Type} `{OS W}.

(** The object: [self.workspace] and [self.available_archs]. *)
Record t := mk { workspace : PathLib.Path; available_archs : list string }.

Definition _check_toolchains : M W (list string) :=
  available ←
    for_each ARCHITECTURES
      (fun available '(arch, config) =>
         found ← query (which (cc config));
         if (found : bool) then mret (available ++ [arch])%list
         else mret available)
      [];
  match available with
  | [] => raise (Exn CompilationError
                   "No cross-compilers found! Install toolchains first.")
  | _ => mret available
  end.

Definition __init__ (workspace_dir : string) : M W t :=
  let ws := PathLib.of_str workspace_dir in
  call (EMkdir (PathLib.to_str ws)) (mkdir_p (PathLib.to_str ws));;
  archs ← _check_toolchains;
  mret (mk ws archs).

Definition compile_file (self : t) (source_file output_file : string)
    (architecture optimization compiler : string)
    (extra_flags : option (list string)) : M W bool :=
  if negb (bool_decide (architecture ∈ available_archs self)) then mret false
  else
    match ODict.get architecture ARCHITECTURES with
    | None => raise (Exn KeyError architecture)
    | Some arch_config =>
        let clang_x86 :=
          bool_decide (compiler = "clang")
          && bool_decide (architecture ∈ ["x86"; "x86-64"]) in
        let cc' := if clang_x86 then "clang" else cc arch_config in
        let target_flag :=
          if clang_x86 then
            if bool_decide (architecture = "x86")
            then "--target=i686-linux-gnu"
            else "--target=x86_64-linux-gnu"
          else "" in
        let flags :=
          [ optimization; cflags arch_config; target_flag; "-static";
            "-fno-stack-protector"; "-o"; output_file; source_file ] in
        let flags :=
          match extra_flags with
          | Some (x :: r) => (flags ++ (x :: r))%list
          | _ => flags
          end in
        let flags := List.filter Py.truthy flags in
        let cmd := cc' :: flags in
        fun st =>
          let '(p, w') := subprocess_run cmd 300 (world st) in
          let st' := mkState w' (trace st ++ [ESpawn cmd])%list in
          match p with
          | Completed returncode _ _ =>
              if (returncode =? 0)%Z then (Ok true, st') else (Ok false, st')
          | ProcRaises _ => (Ok false, st')
          end
    end.

(** [_find_source_file]: the first pattern with a match decides. *)
Definition _find_source_file (self : t) (source_dir function_name : string)
  : M W (option string) :=
  let source_path := PathLib.to_str (PathLib.of_str source_dir) in
  let patterns :=
    [ function_name +:+ ".c";
      function_name +:+ ".cpp";
      "*" +:+ function_name +:+ "*.c";
      "*" +:+ function_name +:+ "*.cpp" ] in
  for_each patterns
    (fun (found : option string) pattern =>
       match found with
       | Some _ => mret found
       | None =>
           fun st =>
             match rglob source_path pattern (world st) with
             | Ok (m :: _) => (Ok (Some m), st)
             | Ok [] => (Ok None, st)
             | Raise e => (Raise e, st)
             end
       end)
    None.

(** [_compute_md5]: the digest of the file's bytes, read in chunks. *)
Definition _compute_md5 (self : t) (file_path : string) : M W string :=
  data ← call (EReadBytes file_path)
            (fun w => (read_bytes file_path w, w));
  mret (md5_hexdigest data).

(** The body of the innermost loop of [compile_library]. *)
Definition compile_cell (self : t) (library_name source_dir : string)
    (output_path : PathLib.Path) (arch opt : string)
    (results : list (cell * binary_info)) (func_name : string)
  : M W (list (cell * binary_info)) :=
  source_file ← _find_source_file self source_dir func_name;
  match source_file with
  | None => mret results
  | Some source_file =>
      if negb (Py.truthy source_file) then mret results
      else
        let output_file :=
          PathLib.joinpath output_path
            (output_name library_name func_name arch opt) in
        success ← compile_file self source_file (PathLib.to_str output_file)
                    arch opt "gcc" None;
        if (success : bool) then
          sz ← (fun st =>
                  (stat_size (PathLib.to_str output_file) (world st), st));
          digest ← _compute_md5 self (PathLib.to_str output_file);
          mret (ODict.set (arch, opt, func_name)
                  (mkInfo (PathLib.to_str output_file) source_file arch opt
                     func_name library_name sz digest)
                  results)
        else mret results
  end.

Definition compile_library (self : t) (library_name source_dir : string)
    (functions : list string) (output_dir : string)
  : M W (list (cell * binary_info)) :=
  let output_path := PathLib.of_str output_dir in
  call (EMkdir (PathLib.to_str output_path))
       (mkdir_p (PathLib.to_str output_path));;
  for_each (available_archs self)
    (fun results arch =>
       for_each OPTIMIZATION_LEVELS
         (fun results opt =>
            for_each functions
              (compile_cell self library_name source_dir output_path arch opt)
              results)
         results)
    [].

End WithOS.
End CrossCompiler.

(** ** cross_compiler.py: DatasetCompiler *)

Module DatasetCompiler.

(** One entry of [config['crypto_libraries']]. *)
Record lib_config := mkLib {
  cfg_name : option string;
  cfg_version : option string;
  cfg_url : option string
}.

(** [_get_crypto_functions] *)
Definition function_map : list (string * list string) :=
  [ ("openssl",
      [ "AES_encrypt"; "AES_decrypt"; "AES_set_encrypt_key";
        "RSA_public_encrypt"; "RSA_private_decrypt";
        "SHA256_Init"; "SHA256_Update"; "SHA256_Final";
        "SHA1_Init"; "SHA1_Update"; "SHA1_Final";
        "MD5_Init"; "MD5_Update"; "MD5_Final";
        "DES_encrypt1"; "DES_decrypt1";
        "HMAC"; "HMAC_Init"; "HMAC_Update"; "HMAC_Final" ]);
    ("mbedtls",
      [ "mbedtls_aes_encrypt"; "mbedtls_aes_decrypt";
        "mbedtls_rsa_public"; "mbedtls_rsa_private";
        "mbedtls_sha256"; "mbedtls_sha1"; "mbedtls_md5";
        "mbedtls_des_crypt_ecb"; "mbedtls_des3_crypt_ecb" ]);
    ("libsodium",
      [ "crypto_secretbox_easy"; "crypto_secretbox_open_easy";
        "crypto_box_easy"; "crypto_box_open_easy";
        "crypto_sign"; "crypto_sign_open";
        "crypto_hash_sha256"; "crypto_hash_sha512" ]) ].

Definition _get_crypto_functions (library : string) : list string :=
  default [] (ODict.get library function_map).

Section WithOS.
Context {W : Type} `{OS W}.

Record t := mk {
  config : list lib_config;
  output_dir : PathLib.Path;
  compiler : CrossCompiler.t;
  library_manager : LibraryManager.t
}.

Definition __init__ (config : list lib_config) (output_dir : string)
  : M W t :=
  let out := PathLib.of_str output_dir in
  call (EMkdir (PathLib.to_str out)) (mkdir_p (PathLib.to_str out));;
  compiler ← CrossCompiler.__init__
                (PathLib.to_str (PathLib.joinpath out "workspace"));
  library_manager ← LibraryManager.__init__
                       (PathLib.to_str (PathLib.joinpath out "sources"));
  mret (mk config out compiler library_manager).

Definition _save_metadata (self : t)
    (results : list (string * list (CrossCompiler.cell * binary_info)))
  : M W unit :=
  let metadata_file :=
    PathLib.to_str (PathLib.joinpath (output_dir self)
                      "compilation_metadata.json") in
  let serializable :=
    fold_left
      (fun acc '(lib_name, lib_results) =>
         ODict.set lib_name
           (fold_left
              (fun inner '((a, o, f), value) =>
                 ODict.set (a +:+ "_" +:+ o +:+ "_" +:+ f) value inner)
              lib_results [])
           acc)
      results [] in
  call (EWriteJson metadata_file) (write_json metadata_file serializable).

(** The body of the [for lib_config in libraries] loop. *)
Definition compile_one_library (self : t)
    (all_results : list (string * list (CrossCompiler.cell * binary_info)))
    (lib_config : lib_config)
  : M W (list (string * list (CrossCompiler.cell * binary_info))) :=
  match cfg_name lib_config with
  | None => raise (Exn KeyError "name")
  | Some lib_name =>
      source_dir ← LibraryManager.get_library (library_manager self)
                      lib_name (cfg_version lib_config) (cfg_url lib_config);
      let functions := _get_crypto_functions lib_name in
      results ← CrossCompiler.compile_library (compiler self) lib_name
                   source_dir functions
                   (PathLib.to_str
                      (PathLib.joinpath
                         (PathLib.joinpath (output_dir self) "binaries")
                         lib_name));
      mret (ODict.set lib_name results all_results)
  end.

Definition compile_all (self : t) : M W unit :=
  all_results ← for_each (config self) (compile_one_library self) [];
  _save_metadata self all_results.

End WithOS.
End DatasetCompiler.

(** ** function_extractor.py *)

Module FunctionExtractor.

(** The value of one digit character, for bases up to 36. *)
Definition digit_val (c : ascii) : option Z :=
  let n := Z.of_nat (nat_of_ascii c) in
  if (48 <=? n)%Z && (n <=? 57)%Z then Some (n - 48)%Z
  else if (97 <=? n)%Z && (n <=? 122)%Z then Some (n - 87)%Z
  else if (65 <=? n)%Z && (n <=? 90)%Z then Some (n - 55)%Z
  else None.

(** The digits of an integer literal: single underscores may separate
    digits. [prev] tells whether the previous character was a digit. *)
Fixpoint int_digits (base acc : Z) (prev : bool) (s : string) : option Z :=
  match s with
  | EmptyString => if prev then Some acc else None
  | String c r =>
      if Ascii.eqb c "_" then
        if prev then int_digits base acc false r else None
      else
        match digit_val c with
        | Some d =>
            if (d <? base)%Z then int_digits base (acc * base + d)%Z true r
            else None
        | None => None
        end
  end.

(** [int(s, base)] for [base] 10 or 16 on a token without whitespace:
    an optional sign, for base 16 an optional [0x] prefix, then the
    digits. [None] stands for [ValueError]. The interpreter's limit on
    the length of a decimal literal (4300 digits by default) is not
    modelled. *)
Definition py_int (base : Z) (s : string) : option Z :=
  let '(neg, body) :=
    match s with
    | String "-" r => (true, r)
    | String "+" r => (false, r)
    | _ => (false, s)
    end in
  let digits :=
    if (base =? 16)%Z then
      match body with
      | String "0" (String "x" (String "_" r)) => r
      | String "0" (String "X" (String "_" r)) => r
      | String "0" (String "x" r) => r
      | String "0" (String "X" r) => r
      | _ => body
      end
    else body in
  v ← int_digits base 0 false digits;
  Some (if (neg : bool) then (- v)%Z else v).

(** [f'{n:x}'] *)
Definition hex_digit (d : nat) : ascii :=
  if (d <? 10)%nat then ascii_of_nat (48 + d) else ascii_of_nat (87 + d).

Fixpoint hex_go (fuel n : nat) (acc : string) : string :=
  match fuel with
  | O => acc
  | S fuel' =>
      let acc' := String (hex_digit (n mod 16)) acc in
      if (n <? 16)%nat then acc' else hex_go fuel' (n / 16) acc'
  end.

Definition format_hex (n : nat) : string := hex_go (S n) n "".

(** A function record: the dict with keys [address], [size], [name] and
    [source]. *)
Definition function_dict (address size : Z) (name source : string)
  : gmap string pyval :=
  <["address" := Atom (AInt address)]>
  (<["size" := Atom (AInt size)]>
  (<["name" := Atom (AStr name)]>
  (<["source" := Atom (AStr source)]> ∅))).

(** One line of [readelf -s] output: the function it gives, if any. *)
Definition parse_symbol_line (line : string) : option (gmap string pyval) :=
  if Py.contains "FUNC" line then
    let parts := Py.split_ws line in
    if (8 <=? length parts)%nat then
      address ← py_int 16 (nth 1 parts "");
      size ← py_int 10 (nth 2 parts "");
      let name := nth 7 parts "" in
      Some (function_dict address size name "symbol")
    else None
  else None.

Definition prologue_pattern : list Byte.byte :=
  [Byte.x55; Byte.x89; Byte.xe5].

Fixpoint bytes_startswith (pat data : list Byte.byte) : bool :=
  match pat, data with
  | [], _ => true
  | a :: pat', b :: data' => Byte.eqb a b && bytes_startswith pat' data'
  | _ :: _, [] => false
  end.

(** [data.find(pat, start)], [None] for [-1]: [find_at] looks through
    [d], the part of the data from index [i] on. *)
Fixpoint find_at (pat d : list Byte.byte) (i : nat) : option nat :=
  if bytes_startswith pat d then Some i
  else match d with
       | [] => None
       | _ :: r => find_at pat r (S i)
       end.

Definition bytes_find (pat data : list Byte.byte) (start : nat)
  : option nat :=
  if (length data <? start)%nat then None
  else find_at pat (drop start data) start.

(** The [while True] loop of [_extract_heuristic]; [None] when the
    fuel runs out before the loop breaks. *)
Fixpoint heuristic_loop (fuel : nat) (data : list Byte.byte) (offset : nat)
    (functions : list (gmap string pyval))
  : option (list (gmap string pyval)) :=
  match fuel with
  | O => None
  | S fuel' =>
      match bytes_find prologue_pattern data offset with
      | None => Some functions
      | Some offset' =>
          heuristic_loop fuel' data (offset' + 1)
            (functions ++
               [function_dict (Z.of_nat offset') 0
                  ("sub_" +:+ format_hex offset') "heuristic"])%list
      end
  end.

Section WithOS.
Context {W : Type} `{OS W}.

(** The object: whether [objdump] and [readelf] were found. *)
Record t := mk { objdump_available : bool; readelf_available : bool }.

Definition __init__ : M W t :=
  o ← query (which "objdump");
  r ← query (which "readelf");
  mret (mk o r).

Definition _extract_from_symbols (self : t) (binary_path : string)
  : M W (list (gmap string pyval)) :=
  if negb (readelf_available self) then mret []
  else
    let cmd := ["readelf"; "-s"; binary_path] in
    fun st =>
      let '(p, w') := subprocess_run cmd 30 (world st) in
      let st' := mkState w' (trace st ++ [ESpawn cmd])%list in
      match p with
      | Completed returncode stdout _ =>
          if negb (returncode =? 0)%Z then (Ok [], st')
          else
            (Ok (omap parse_symbol_line (Py.split (ascii_of_nat 10) stdout)),
             st')
      | ProcRaises _ => (Ok [], st')
      end.

(** [_extract_heuristic]: every offset at which the prologue occurs
    is visited within [length data + 1] iterations
    ([heuristic_loop_enough_fuel]), so the default is never taken. *)
Definition _extract_heuristic (self : t) (binary_path : string)
  : M W (list (gmap string pyval)) :=
  try_except
    (data ← call (EReadBytes binary_path)
              (fun w => (read_bytes binary_path w, w));
     mret (default [] (heuristic_loop (S (length data)) data 0 [])))
    (fun _ => mret []).

Definition extract_all (self : t) (binary_path : string)
  : M W (list (gmap string pyval)) :=
  let functions := [] in
  symbol_functions ← _extract_from_symbols self binary_path;
  let functions :=
    match symbol_functions with
    | [] => functions
    | _ => (functions ++ symbol_functions)%list
    end in
  match symbol_functions with
  | [] =>
      heuristic_functions ← _extract_heuristic self binary_path;
      mret (functions ++ heuristic_functions)%list
  | _ => mret functions
  end.

End WithOS.
End FunctionExtractor.

(** ** A simulated host

    A small file system with a table of downloadable URLs, a table of
    archive contents, the executables on [PATH] and the behaviour of
    child processes. It instantiates [OS] so that the pipeline can be
    run on concrete inputs. *)

Module Sim.

Inductive node :=
| File (content : list Byte.byte)
| Dir.

Record host := mkHost {
  fs : gmap string node;
  (** what a URL serves; a URL that is not listed cannot be fetched *)
  urls : list (string * list Byte.byte);
  (** the members (relative directory paths) of the archives, by archive
      content; content that is not listed is not a readable archive *)
  archives : list (list Byte.byte * list string);
  (** the executables found on [PATH] *)
  on_path : list string;
  (** child processes *)
  run : list string -> gmap string node -> proc * gmap string node
}.

Definition with_fs (h : host) (fs' : gmap string node) : host :=
  mkHost fs' (urls h) (archives h) (on_path h) (run h).

Definition os_error (msg : string) : exn := Exn OSError msg.

(** [p] and the directories above it. *)
Fixpoint ancestors (n : nat) (p : PathLib.Path) : list string :=
  match n with
  | O => [PathLib.to_str p]
  | S n' => PathLib.to_str p :: ancestors n' (PathLib.parent p)
  end.

Definition make_dirs (p : string) (m : gmap string node) : gmap string node :=
  let path := PathLib.of_str p in
  fold_right (fun d acc => <[d := Dir]> acc) m
    (ancestors (length (PathLib.tail path)) path).

Definition sim_mkdir_p (p : string) (h : host) : result unit * host :=
  match fs h !! p with
  | Some (File _) => (Raise (os_error "File exists"), h)
  | _ => (Ok tt, with_fs h (make_dirs p (fs h)))
  end.

Definition sim_download (url dest : string) (h : host) : result unit * host :=
  match ODict.get url (urls h) with
  | None => (Raise (Exn RequestException url), h)
  | Some body =>
      match fs h !! dest with
      | Some Dir => (Raise (os_error "Is a directory"), h)
      | _ => (Ok tt, with_fs h (<[dest := File body]> (fs h)))
      end
  end.

Definition sim_extract (archive dest : string) (h : host)
  : result unit * host :=
  match fs h !! archive with
  | Some (File body) =>
      match ODict.get body (archives h) with
      | Some members =>
          (Ok tt,
           with_fs h
             (fold_right
                (fun m acc =>
                   make_dirs
                     (PathLib.to_str
                        (PathLib.joinpath (PathLib.of_str dest) m)) acc)
                (fs h) members))
      | None => (Raise (os_error "not a readable archive"), h)
      end
  | _ => (Raise (os_error "No such file"), h)
  end.

Definition sim_unlink (p : string) (h : host) : result unit * host :=
  match fs h !! p with
  | Some (File _) => (Ok tt, with_fs h (delete p (fs h)))
  | Some Dir => (Raise (os_error "Is a directory"), h)
  | None => (Raise (os_error "No such file"), h)
  end.

(** Shell-style matching of a file name against a pattern with [*]. *)
Fixpoint glob_match (pat s : string) : bool :=
  match pat with
  | EmptyString => bool_decide (s = "")
  | String c pat' =>
      if Ascii.eqb c "*" then
        (fix star (s : string) : bool :=
           glob_match pat' s ||
           match s with
           | EmptyString => false
           | String _ s' => star s'
           end) s
      else
        match s with
        | String d s' => Ascii.eqb c d && glob_match pat' s'
        | EmptyString => false
        end
  end.

Definition sim_rglob (dir pattern : string) (h : host)
  : result (list string) :=
  Ok (filter
        (fun p =>
           Py.startswith (dir +:+ "/") p = true
           ∧ glob_match pattern (PathLib.name (PathLib.of_str p)) = true)
        (map fst (map_to_list (fs h)))).

Definition sim_stat_size (p : string) (h : host) : result Z :=
  match fs h !! p with
  | Some (File body) => Ok (Z.of_nat (length body))
  | Some Dir => Ok 4096%Z
  | None => Raise (os_error "No such file")
  end.

Definition sim_read_bytes (p : string) (h : host)
  : result (list Byte.byte) :=
  match fs h !! p with
  | Some (File body) => Ok body
  | Some Dir => Raise (os_error "Is a directory")
  | None => Raise (os_error "No such file")
  end.

(** A stand-in for the digest: the simulated host does not compute MD5. *)
Definition sim_digest (data : list Byte.byte) : string :=
  "md5:" +:+ FunctionExtractor.format_hex (length data).

Definition sim_write_json (p : string)
    (doc : list (string * list (string * binary_info))) (h : host)
  : result unit * host :=
  match fs h !! p with
  | Some Dir => (Raise (os_error "Is a directory"), h)
  | _ => (Ok tt, with_fs h (<[p := File []]> (fs h)))
  end.

#[global] Instance sim_os : OS host := {
  path_exists p h := bool_decide (is_Some (fs h !! p));
  mkdir_p := sim_mkdir_p;
  http_download := sim_download;
  tar_extractall := sim_extract;
  zip_extractall := sim_extract;
  unlink := sim_unlink;
  which cmd h := bool_decide (cmd ∈ on_path h);
  subprocess_run cmd _ h :=
    let '(p, fs') := run h cmd (fs h) in (p, with_fs h fs');
  rglob := sim_rglob;
  stat_size := sim_stat_size;
  read_bytes := sim_read_bytes;
  md5_hexdigest := sim_digest;
  write_json := sim_write_json
}.

(** A compiler that writes four bytes to the file named after [-o] and
    exits with 0; any other command exits with 1. *)
Fixpoint output_arg (cmd : list string) : option string :=
  match cmd with
  | "-o" :: out :: _ => Some out
  | _ :: r => output_arg r
  | [] => None
  end.

Definition fake_gcc (cmd : list string) (m : gmap string node)
  : proc * gmap string node :=
  match cmd with
  | "gcc" :: args =>
      match output_arg args with
      | Some out =>
          (Completed 0 "" "",
           <[out := File [Byte.x7f; Byte.x45; Byte.x4c; Byte.x46]]> m)
      | None => (Completed 1 "" "no output file", m)
      end
  | _ => (Completed 1 "" "", m)
  end.

Definition init (h : host) : state host := mkState h [].

End Sim.

(** ** Lower-casing, stated on character codes

    An ASCII string, and what it is for [t] to be [s] in lower case:
    the same length, with the code of every capital letter [A]-[Z]
    (65 to 90) raised by 32 and every other code kept. *)

Definition is_ascii (s : string) : Prop :=
  Forall (fun c => nat_of_ascii c < 128) (list_ascii_of_string s).

Definition lowercase_code (n : nat) : nat :=
  if (65 <=? n)%nat && (n <=? 90)%nat then n + 32 else n.

Definition is_lowercase_of (s t : string) : Prop :=
  map nat_of_ascii (list_ascii_of_string t)
  = map lowercase_code (map nat_of_ascii (list_ascii_of_string s)).

(** ** Provenance of a function record *)

Definition from_symbols (f : gmap string pyval) : Prop :=
  f !! "source" = Some (Atom (AStr "symbol")).

Definition from_heuristic (f : gmap string pyval) : Prop :=
  f !! "source" = Some (Atom (AStr "heuristic")).

Definition heuristic_entry (f : gmap string pyval) : Prop :=
  from_heuristic f /\ f !! "size" = Some (Atom (AInt 0)).

(** ** Counting the network fetches of a run *)

Definition is_download (ev : event) : bool :=
  match ev with EDownload _ _ => true | _ => false end.

Definition downloads (tr : list event) : nat :=
  length (List.filter is_download tr).

Definition is_unlink (ev : event) : bool :=
  match ev with EUnlink _ => true | _ => false end.

(** ** Directory prefixes of a path string

    The text of a path before its last component: empty, or ending in
    a slash. *)

Definition dir_prefix (d : string) : Prop :=
  d = "" \/ exists d0, d = d0 +:+ "/".

(** ** The entries of a build matrix

    An entry of the dictionary that [compile_library] returns, for
    library [library_name] and output directory [output_path]: the key
    names an architecture of the catalog and one of the optimization
    levels, and the value records that cell and the binary named after
    it. *)

Definition unit_of_cell (library_name : string) (output_path : PathLib.Path)
    (entry : CrossCompiler.cell * binary_info) : Prop :=
  let '((arch, opt, func_name), u) := entry in
  is_Some (ODict.get arch CrossCompiler.ARCHITECTURES)
  /\ opt ∈ CrossCompiler.OPTIMIZATION_LEVELS
  /\ binary_path u
     = PathLib.to_str
         (PathLib.joinpath output_path
            (CrossCompiler.output_name library_name func_name arch opt))
  /\ architecture u = arch
  /\ optimization u = opt
  /\ function u = func_name
  /\ library u = library_name.

(** ** Hosts and objects used in the examples *)

(** The value a run returned, or [d] when it raised. *)
Definition returned {A} (d : A) (r : result A) : A :=
  match r with Ok a => a | Raise _ => d end.

Definition sim_host_gcc_only : Sim.host :=
  Sim.mkHost (<["src/aes.c" := Sim.File []]> ∅) [] [] ["gcc"] Sim.fake_gcc.

Definition sim_cross_compiler : CrossCompiler.t :=
  CrossCompiler.mk (PathLib.of_str "ws") ["x86"; "x86-64"].

(** A binary whose bytes hold the prologue pattern twice, on a host where
    [readelf] prints a symbol table with two function rows. *)
Definition prologue_bytes : list Byte.byte :=
  [Byte.x00; Byte.x55; Byte.x89; Byte.xe5; Byte.x90; Byte.x55; Byte.x89;
   Byte.xe5].

Definition readelf_stdout : string :=
  "Symbol table '.symtab' contains 3 entries:" +:+ String "010"
  ("   Num:    Value          Size Type    Bind   Vis      Ndx Name"
   +:+ String "010"
  ("     1: 0000000000401136    23 FUNC    GLOBAL DEFAULT   14 AES_encrypt"
   +:+ String "010"
  ("     2: 0000000000404028     4 OBJECT  GLOBAL DEFAULT   25 counter"
   +:+ String "010"
  ("     3: 0000000000401150    57 FUNC    GLOBAL DEFAULT   14 main"
   +:+ String "010" "")))).

Definition fake_readelf (cmd : list string) (m : gmap string Sim.node)
  : proc * gmap string Sim.node :=
  match cmd with
  | "readelf" :: _ => (Completed 0 readelf_stdout "", m)
  | _ => (Completed 1 "" "", m)
  end.

Definition sim_host_with_symbols : Sim.host :=
  Sim.mkHost (<["fw.bin" := Sim.File prologue_bytes]> ∅) [] []
    ["readelf"; "objdump"] fake_readelf.

(** The same binary on a host without [readelf]. *)
Definition sim_host_stripped : Sim.host :=
  Sim.mkHost (<["fw.bin" := Sim.File prologue_bytes]> ∅) [] [] []
    fake_readelf.

(** A mirror that serves one archive. On [sim_host_mirror] the archive
    unpacks into [lib-1.0]; on [sim_host_renamed] the same download
    unpacks into [lib-v1.0], a directory named differently from the
    cache path that [get_library] derives from name and version. On
    [sim_host_corrupt] the served file is not a readable archive. *)
Definition archive_bytes : list Byte.byte := [Byte.x1f; Byte.x8b; Byte.x08].

Definition mirror_url : string := "http://mirror.example/pub/lib-1.0.tar.gz".

Definition sim_host_mirror : Sim.host :=
  Sim.mkHost ∅ [(mirror_url, archive_bytes)]
    [(archive_bytes, ["lib-1.0/src"])] ["gcc"] Sim.fake_gcc.

Definition sim_host_renamed : Sim.host :=
  Sim.mkHost ∅ [(mirror_url, archive_bytes)]
    [(archive_bytes, ["lib-v1.0/src"])] ["gcc"] Sim.fake_gcc.

Definition sim_host_corrupt : Sim.host :=
  Sim.mkHost ∅ [(mirror_url, archive_bytes)] [] ["gcc"] Sim.fake_gcc.

Definition sim_library_manager : LibraryManager.t :=
  LibraryManager.mk (PathLib.of_str "sources").

(** A host with [gcc] and a cached source tree of openssl, and a
    configuration that lists a library without cache and without URL
    before openssl. *)
Definition sim_host_openssl : Sim.host :=
  Sim.mkHost
    (<["out/sources/openssl/crypto/aes/AES_encrypt.c" := Sim.File []]>
     (<["out/sources/openssl/crypto/hmac/HMAC.c" := Sim.File []]>
     (<["out/sources/openssl" := Sim.Dir]> ∅)))
    [] [] ["gcc"] Sim.fake_gcc.

Definition ghost_config : DatasetCompiler.lib_config :=
  DatasetCompiler.mkLib (Some "ghostlib") None None.

Definition openssl_config : DatasetCompiler.lib_config :=
  DatasetCompiler.mkLib (Some "openssl") None None.

Definition sim_dataset_compiler (config : list DatasetCompiler.lib_config)
  : DatasetCompiler.t :=
  DatasetCompiler.mk config (PathLib.of_str "out")
    (CrossCompiler.mk (PathLib.of_str "out/workspace") ["x86"; "x86-64"])
    (LibraryManager.mk (PathLib.of_str "out/sources")).

(** ** The prologue scan, stated on the data

    The offsets at which the three prologue bytes occur, in ascending
    order, and the record that the scan makes for an offset. *)

Definition prologue_at (data : list Byte.byte) (i : nat) : Prop :=
  FunctionExtractor.bytes_startswith FunctionExtractor.prologue_pattern
    (drop i data) = true.

#[global] Instance prologue_at_dec data i : Decision (prologue_at data i).
Proof. unfold prologue_at. apply _. Defined.

Definition prologue_offsets (data : list Byte.byte) : list nat :=
  filter (prologue_at data) (seq 0 (length data)).

Definition heuristic_record (offset : nat) : gmap string pyval :=
  FunctionExtractor.function_dict (Z.of_nat offset) 0
    ("sub_" +:+ FunctionExtractor.format_hex offset) "heuristic".

(** * Properties *)

(** ** Strings *)

Lemma app_cons (a : ascii) (k b : string) :
  String a k +:+ b = String a (k +:+ b).
Proof. reflexivity. Qed.

Lemma app_nil (b : string) : "" +:+ b = b.
Proof. reflexivity. Qed.

Lemma startswith_spec (k s : string) :
  Py.startswith k s = true <-> exists b, s = k +:+ b.
Proof.
  revert s. induction k as [|a k IH]; intros s; simpl.
  - split; [intros _; by exists s | done].
  - destruct s as [|c s]; simpl.
    + split; [done | intros [b Hb]; by rewrite app_cons in Hb].
    + rewrite andb_true_iff, IH, Ascii.eqb_eq. split.
      * intros [-> [b ->]]. by exists b.
      * intros [b Hb]. rewrite app_cons in Hb. injection Hb as -> ->. eauto.
Qed.

Lemma contains_spec (k s : string) :
  Py.contains k s = true <-> exists a b, s = a +:+ k +:+ b.
Proof.
  induction s as [|c s IH].
  - simpl. rewrite orb_false_r, startswith_spec. split.
    + intros [b Hb]. by exists "", b.
    + intros [a [b Hab]]. destruct a; [by exists b | by rewrite app_cons in Hab].
  - cbn [Py.contains]. rewrite orb_true_iff, IH, startswith_spec. split.
    + intros [[b Hb] | [a [b Hab]]].
      * by exists "", b.
      * exists (String c a), b. rewrite app_cons. by f_equal.
    + intros [a [b Hab]]. destruct a as [|c' a].
      * left. by exists b.
      * right. rewrite app_cons in Hab. injection Hab as _ ->. eauto.
Qed.

(** ** auto_labeler.py *)

Import AutoLabeler.

Lemma detect_loop_first_match (items : list (string * string)) (s : string) :
  (exists pre key value post,
      items = (pre ++ (key, value) :: post)%list
      /\ Py.contains key s = true
      /\ Forall (fun kv => Py.contains kv.1 s = false) pre
      /\ detect_loop items s = value)
  \/ (Forall (fun kv => Py.contains kv.1 s = false) items
      /\ detect_loop items s = "Unknown").
Proof.
  induction items as [|[k v] items IH]; simpl.
  - right. by split.
  - destruct (Py.contains k s) eqn:Hk.
    + left. exists [], k, v, items. by repeat split.
    + destruct IH as [(pre & key & value & post & -> & Hc & Hpre & Hd) | [Hall Hd]].
      * left. exists ((k, v) :: pre), key, value, post.
        repeat split; [done | | done]. by constructor.
      * right. split; [by constructor | done].
Qed.

Lemma lower_is_lowercase_of (s : string) : is_lowercase_of s (Py.lower s).
Proof.
  unfold is_lowercase_of. induction s as [|c s IH]; [done|].
  cbn [Py.lower list_ascii_of_string map]. rewrite IH. f_equal.
  unfold Py.lower_ascii, lowercase_code.
  destruct ((65 <=? nat_of_ascii c)%nat && (nat_of_ascii c <=? 90)%nat)
    eqn:Hcap; [|done].
  apply andb_true_iff in Hcap as [_ Hle%Nat.leb_le].
  apply nat_ascii_embedding. lia.
Qed.

(** C5: for an ASCII function name, [_detect_algorithm] tests the name
    in lower case (every capital letter replaced by its small letter,
    every other character kept) and returns the value of the first key,
    in the declared order of [ALGORITHM_MAP], that occurs in it as a
    substring, or ['Unknown'] when no key does. For ['hmac_sha256_init']
    this is ['SHA-256'], although the later key ['hmac'] occurs in the
    name as well; the capitalised names ['HMAC_SHA256_Init'] and
    ['SHA256_Init'] give ['SHA-256'] too. *)
Theorem detect_algorithm_first_declared_match :
  (forall function_name : string,
      is_ascii function_name ->
      exists func_lower,
        is_lowercase_of function_name func_lower
        /\ ((exists pre key value post,
                ALGORITHM_MAP = (pre ++ (key, value) :: post)%list
                /\ (exists a b, func_lower = a +:+ key +:+ b)
                /\ Forall (fun kv => ~ exists a b,
                               func_lower = a +:+ kv.1 +:+ b) pre
                /\ _detect_algorithm function_name = value)
            \/ (Forall (fun kv => ~ exists a b,
                            func_lower = a +:+ kv.1 +:+ b) ALGORITHM_MAP
                /\ _detect_algorithm function_name = "Unknown")))
  /\ _detect_algorithm "hmac_sha256_init" = "SHA-256"
  /\ ("hmac", "HMAC") ∈ ALGORITHM_MAP
  /\ (exists a b, "hmac_sha256_init" = a +:+ "hmac" +:+ b)
  /\ _detect_algorithm "HMAC_SHA256_Init" = "SHA-256"
  /\ _detect_algorithm "SHA256_Init" = "SHA-256".
Proof.
  assert (Hno : forall (s : string) (l : list (string * string)),
             Forall (fun kv => Py.contains kv.1 s = false) l ->
             Forall (fun kv => ~ exists a b, s = a +:+ kv.1 +:+ b) l).
  { intros s l Hl. eapply Forall_impl; [exact Hl|]. intros kv Hkv Hex.
    apply contains_spec in Hex. congruence. }
  split; [|split; [reflexivity | split; [|split; [|split; reflexivity]]]].
  - intros function_name _. exists (Py.lower function_name).
    split; [apply lower_is_lowercase_of|]. unfold _detect_algorithm.
    destruct (detect_loop_first_match ALGORITHM_MAP (Py.lower function_name))
      as [(pre & key & value & post & Heq & Hc & Hpre & Hd) | [Hall Hd]].
    + left. exists pre, key, value, post.
      repeat split; [done | by apply contains_spec | by apply Hno | done].
    + right. split; [by apply Hno | done].
  - unfold ALGORITHM_MAP. set_solver.
  - by exists "", "_sha256_init".
Qed.

Lemma detect_algorithm_first_declared_match_witness :
  is_ascii "SHA256_Init"
  /\ exists func_lower,
       is_lowercase_of "SHA256_Init" func_lower
       /\ ((exists pre key value post,
               ALGORITHM_MAP = (pre ++ (key, value) :: post)%list
               /\ (exists a b, func_lower = a +:+ key +:+ b)
               /\ Forall (fun kv => ~ exists a b,
                              func_lower = a +:+ kv.1 +:+ b) pre
               /\ _detect_algorithm "SHA256_Init" = value)
           \/ (Forall (fun kv => ~ exists a b,
                           func_lower = a +:+ kv.1 +:+ b) ALGORITHM_MAP
               /\ _detect_algorithm "SHA256_Init" = "Unknown")).
Proof.
  assert (Hascii : is_ascii "SHA256_Init")
    by (unfold is_ascii; simpl; repeat constructor; lia).
  split; [exact Hascii|].
  exact (proj1 detect_algorithm_first_declared_match "SHA256_Init" Hascii).
Defined.

(** C6: a file name whose stem has fewer than four underscore-delimited
    fields is labeled [{algorithm: 'Unknown', is_crypto: False}]; with
    four or more fields the label has [is_crypto: True], whatever the
    algorithm lookup gives. *)
Theorem label_function_field_boundary
    (binary_path : string) (function_info : gmap string pyval) :
  let parts := Py.split "_" (PathLib.stem (PathLib.of_str binary_path)) in
  (length parts < 4 ->
   label_function binary_path function_info !! "label"
   = Some (Dict (<["algorithm" := AStr "Unknown"]>
                 (<["is_crypto" := ABool false]> ∅))))
  /\ (4 <= length parts ->
      exists d, label_function binary_path function_info !! "label"
                = Some (Dict d)
                /\ d !! "is_crypto" = Some (ABool true)
                /\ d !! "algorithm"
                   = Some (AStr (_detect_algorithm (nth 1 parts "")))).
Proof.
  intros parts. unfold label_function, filename_parts. fold parts.
  rewrite lookup_insert_eq. split; intros Hlen.
  - destruct parts as [|a [|b [|c [|d r]]]]; simpl in *; try done; lia.
  - destruct parts as [|a [|b [|c [|d r]]]]; simpl in Hlen; try lia.
    eexists. split; [reflexivity|]. simpl. by split.
Qed.

Lemma label_function_field_boundary_witness :
  label_function "out/lib_f_x86.bin" ∅ !! "label"
  = Some (Dict (<["algorithm" := AStr "Unknown"]>
                (<["is_crypto" := ABool false]> ∅)))
  /\ exists d, label_function "out/lib_zzz_x86_o0.bin" ∅ !! "label"
               = Some (Dict d)
               /\ d !! "is_crypto" = Some (ABool true)
               /\ d !! "algorithm" = Some (AStr "Unknown").
Proof.
  split.
  - apply (label_function_field_boundary "out/lib_f_x86.bin" ∅).
    vm_compute. lia.
  - destruct (proj2 (label_function_field_boundary "out/lib_zzz_x86_o0.bin" ∅))
      as (d & Hd & Hc & Ha).
    + vm_compute. lia.
    + exists d. by repeat split.
Defined.

(** C10: the label stored by [label_function] is determined by the
    binary path alone: it is the same for any two function records, and
    every record that [label_batch] returns for one binary carries that
    one label. *)
Theorem label_depends_only_on_binary_path (binary_path : string) :
  exists l,
    (forall function_info : gmap string pyval,
        label_function binary_path function_info !! "label" = Some l)
    /\ (forall functions : list (gmap string pyval),
           Forall (fun f => f !! "label" = Some l)
                  (label_batch functions binary_path))
    /\ (forall functions : list (gmap string pyval),
           length (label_batch functions binary_path) = length functions).
Proof.
  exists (Dict (make_label (filename_parts binary_path))).
  split; [|split].
  - intros function_info. unfold label_function. apply lookup_insert_eq.
  - intros functions. unfold label_batch. apply Forall_map, Forall_forall.
    intros f _. unfold label_function. apply lookup_insert_eq.
  - intros functions. unfold label_batch. apply length_map.
Qed.

(** ** The monad of a run *)

Section Run.
Context {W : Type}.

Lemma bind_ok {A B} (m : M W A) (k : A -> M W B) st a st' :
  m st = (Ok a, st') -> (m ≫= k) st = k a st'.
Proof. intros Hm. unfold mbind, M_bind, bind. by rewrite Hm. Qed.

Lemma bind_raise {A B} (m : M W A) (k : A -> M W B) st e st' :
  m st = (Raise e, st') -> (m ≫= k) st = (Raise e, st').
Proof. intros Hm. unfold mbind, M_bind, bind. by rewrite Hm. Qed.

Lemma bind_inv_ok {A B} (m : M W A) (k : A -> M W B) st b st2 :
  (m ≫= k) st = (Ok b, st2) ->
  exists a st1, m st = (Ok a, st1) /\ k a st1 = (Ok b, st2).
Proof.
  unfold mbind, M_bind, bind. destruct (m st) as [[a|e] st1]; [eauto | done].
Qed.

Lemma mret_run {A} (a : A) (st : state W) : (mret a : M W A) st = (Ok a, st).
Proof. reflexivity. Qed.

Lemma for_each_app {A B} (l1 l2 : list A) (body : B -> A -> M W B) acc st :
  for_each (l1 ++ l2)%list body acc st
  = (for_each l1 body acc ≫= for_each l2 body) st.
Proof.
  revert acc st. induction l1 as [|x l1 IH]; intros acc st.
  - reflexivity.
  - rewrite <- app_comm_cons. cbn [for_each].
    unfold mbind, M_bind, bind in *.
    destruct (body acc x st) as [[acc'|e] st']; [apply IH | done].
Qed.

End Run.

(** ** cross_compiler.py *)

Section CrossCompilerProps.
Context {W : Type} `{OS W}.
Import CrossCompiler.

(** C7: for an architecture that is not among the available ones,
    [compile_file] returns [False]; it does not raise, and the state of
    the run is untouched: no compiler process is started. *)
Theorem compile_file_unavailable_architecture
    (self : CrossCompiler.t) (source_file output_file : string)
    (architecture optimization compiler : string)
    (extra_flags : option (list string)) (st : state W) :
  architecture ∉ available_archs self ->
  compile_file self source_file output_file architecture optimization
    compiler extra_flags st = (Ok false, st).
Proof.
  intros Hnot. unfold compile_file.
  by rewrite bool_decide_eq_false_2.
Qed.

End CrossCompilerProps.

Lemma compile_file_unavailable_architecture_witness :
  ("mips" ∉ CrossCompiler.available_archs sim_cross_compiler)
  /\ CrossCompiler.compile_file sim_cross_compiler "src/aes.c" "out/aes.bin"
       "mips" "-O2" "gcc" None (Sim.init sim_host_gcc_only)
     = (Ok false, Sim.init sim_host_gcc_only)
  /\ trace (Sim.init sim_host_gcc_only) = [].
Proof.
  assert (Hnot : "mips" ∉ CrossCompiler.available_archs sim_cross_compiler).
  { apply (bool_decide_eq_false_1 _). vm_compute. reflexivity. }
  split; [exact Hnot | split; [|reflexivity]].
  apply (compile_file_unavailable_architecture sim_cross_compiler
           "src/aes.c" "out/aes.bin" "mips" "-O2" "gcc" None
           (Sim.init sim_host_gcc_only) Hnot).
Defined.

(** ** function_extractor.py *)

Section FunctionExtractorProps.
Context {W : Type} `{OS W}.
Import FunctionExtractor.

Lemma function_dict_source address size name source :
  function_dict address size name source !! "source"
  = Some (Atom (AStr source)).
Proof. reflexivity. Qed.

Lemma function_dict_size address size name source :
  function_dict address size name source !! "size"
  = Some (Atom (AInt size)).
Proof. reflexivity. Qed.

Lemma parse_symbol_line_source line f :
  parse_symbol_line line = Some f -> from_symbols f.
Proof.
  unfold parse_symbol_line, from_symbols.
  destruct (Py.contains "FUNC" line); [|done].
  destruct (8 <=? length (Py.split_ws line))%nat; [|done].
  destruct (py_int 16 _); [|done]. destruct (py_int 10 _); [|done].
  simpl. intros [= <-]. apply function_dict_source.
Qed.

Lemma extract_from_symbols_run self binary_path st :
  exists fs st',
    _extract_from_symbols self binary_path st = (Ok fs, st')
    /\ Forall from_symbols fs
    /\ (fs <> [] ->
        trace st' = (trace st ++ [ESpawn ["readelf"; "-s"; binary_path]])%list).
Proof.
  unfold _extract_from_symbols.
  destruct (readelf_available self); simpl.
  - destruct (subprocess_run _ _ _) as [[rc out err|e] w'].
    + destruct (rc =? 0)%Z; simpl.
      * eexists _, _. split; [reflexivity|]. split; [|done].
        apply Forall_forall. intros f Hf.
        apply list_elem_of_omap in Hf as (line & _ & Hline).
        by eapply parse_symbol_line_source.
      * eexists _, _. by repeat split.
    + eexists _, _. by repeat split.
  - eexists _, _. by repeat split.
Qed.

(** *** The prologue scan *)

Lemma bytes_startswith_length pat d :
  bytes_startswith pat d = true -> length pat <= length d.
Proof.
  revert d. induction pat as [|a pat IH]; intros [|b d]; simpl; try done.
  - lia.
  - intros [_ Hd]%andb_true_iff. apply IH in Hd. lia.
Qed.

Lemma find_at_bounds pat d i j :
  find_at pat d i = Some j -> i <= j /\ j - i + length pat <= length d.
Proof.
  revert i. induction d as [|b d IH]; intros i; simpl.
  - destruct (bytes_startswith pat []) eqn:Hs; [|done].
    intros [= <-]. apply bytes_startswith_length in Hs. simpl in Hs. lia.
  - destruct (bytes_startswith pat (b :: d)) eqn:Hs.
    + intros [= <-]. apply bytes_startswith_length in Hs. simpl in Hs. lia.
    + intros Hj%IH. lia.
Qed.

Lemma bytes_find_bounds pat data start j :
  bytes_find pat data start = Some j ->
  start <= j /\ j + length pat <= length data.
Proof.
  unfold bytes_find. destruct (length data <? start)%nat eqn:Hlt; [done|].
  apply Nat.ltb_ge in Hlt. intros [Hij Hlen]%find_at_bounds.
  rewrite length_drop in Hlen. lia.
Qed.

(** The loop ends: every round moves the offset past the match it found,
    so [length data + 1] rounds are enough from offset 0. *)
Lemma heuristic_loop_fuel fuel data offset functions :
  0 < fuel -> length data < fuel + offset ->
  is_Some (heuristic_loop fuel data offset functions).
Proof.
  revert offset functions.
  induction fuel as [|fuel IH]; intros offset functions Hpos Hlen; [lia|].
  simpl. destruct (bytes_find prologue_pattern data offset) as [j|] eqn:Hj.
  - apply bytes_find_bounds in Hj. simpl in Hj. apply IH; lia.
  - by eexists.
Qed.

Lemma heuristic_loop_enough_fuel data :
  is_Some (heuristic_loop (S (length data)) data 0 []).
Proof. apply heuristic_loop_fuel; lia. Qed.

Lemma heuristic_loop_entries (P : gmap string pyval -> Prop)
    fuel data offset functions fs :
  (forall address name, P (function_dict address 0 name "heuristic")) ->
  Forall P functions ->
  heuristic_loop fuel data offset functions = Some fs ->
  Forall P fs.
Proof.
  intros HP. revert offset functions.
  induction fuel as [|fuel IH]; intros offset functions Hfs; simpl; [done|].
  destruct (bytes_find prologue_pattern data offset) as [j|].
  - apply IH. apply Forall_app. split; [done|]. by repeat constructor.
  - by intros [= <-].
Qed.

Lemma extract_heuristic_run self binary_path st :
  exists fs st',
    _extract_heuristic self binary_path st = (Ok fs, st')
    /\ Forall heuristic_entry fs.
Proof.
  unfold _extract_heuristic, try_except, call, mbind, M_bind, bind.
  cbn -[heuristic_loop].
  destruct (read_bytes binary_path (world st)) as [data|e];
    cbn -[heuristic_loop].
  - eexists _, _. split; [reflexivity|].
    destruct (heuristic_loop_enough_fuel data) as [fs Hfs].
    rewrite Hfs. cbn [default].
    eapply heuristic_loop_entries; [| |exact Hfs]; [|done].
    intros address name. by split.
  - eexists _, _. by split.
Qed.

(** C4: when the symbol table yields at least one function,
    [extract_all] returns exactly those functions, all of provenance
    ['symbol'] and none of provenance ['heuristic']; the run is left in
    the state reached after reading the symbols, the only host call
    being the [readelf] process, so the heuristic scan did not run. *)
Theorem extract_all_symbols_take_precedence
    (self : FunctionExtractor.t) (binary_path : string) (st st' : state W)
    (symbol_functions : list (gmap string pyval)) :
  _extract_from_symbols self binary_path st = (Ok symbol_functions, st') ->
  symbol_functions <> [] ->
  extract_all self binary_path st = (Ok symbol_functions, st')
  /\ Forall from_symbols symbol_functions
  /\ Forall (fun f => ~ from_heuristic f) symbol_functions
  /\ trace st' = (trace st ++ [ESpawn ["readelf"; "-s"; binary_path]])%list.
Proof.
  intros Hsym Hne.
  destruct (extract_from_symbols_run self binary_path st)
    as (fs & st1 & Hrun & Hall & Htrace).
  rewrite Hsym in Hrun. injection Hrun as <- <-.
  split; [|split; [done | split; [|by apply Htrace]]].
  - unfold extract_all. erewrite bind_ok by exact Hsym.
    destruct symbol_functions; [done | reflexivity].
  - eapply Forall_impl; [exact Hall|].
    unfold from_symbols, from_heuristic. intros f Hf Hh. congruence.
Qed.

(** C3 (as the code has it): a function found by the heuristic scan
    carries the number 0 as its size, in [_extract_heuristic] and in
    whatever [extract_all] returns; both always return. *)
Theorem heuristic_functions_carry_size_zero
    (self : FunctionExtractor.t) (binary_path : string) (st : state W) :
  (exists fs st',
      _extract_heuristic self binary_path st = (Ok fs, st')
      /\ Forall (fun f => from_heuristic f
                          /\ f !! "size" = Some (Atom (AInt 0))) fs)
  /\ (exists fs st',
         extract_all self binary_path st = (Ok fs, st')
         /\ Forall (fun f => from_heuristic f ->
                             f !! "size" = Some (Atom (AInt 0))) fs).
Proof.
  split; [apply extract_heuristic_run|].
  destruct (extract_from_symbols_run self binary_path st)
    as (syms & st1 & Hsym & Hall & _).
  unfold extract_all. erewrite bind_ok by exact Hsym.
  destruct syms as [|f syms].
  - destruct (extract_heuristic_run self binary_path st1)
      as (fs & st2 & Hh & Hfs).
    erewrite bind_ok by exact Hh. eexists _, _. split; [reflexivity|].
    simpl. eapply Forall_impl; [exact Hfs|]. by intros g [_ Hg] _.
  - eexists _, _. split; [reflexivity|]. simpl.
    eapply Forall_impl; [exact Hall|].
    unfold from_symbols, from_heuristic. intros g Hg Hh. congruence.
Qed.

End FunctionExtractorProps.

Lemma extract_all_symbols_take_precedence_witness :
  let run :=
    FunctionExtractor._extract_from_symbols (FunctionExtractor.mk true true)
      "fw.bin" (Sim.init sim_host_with_symbols) in
  length (returned [] run.1) = 2
  /\ FunctionExtractor.extract_all (FunctionExtractor.mk true true)
       "fw.bin" (Sim.init sim_host_with_symbols)
     = (Ok (returned [] run.1), run.2)
  /\ Forall (fun f => ~ from_heuristic f) (returned [] run.1)
  /\ trace run.2 = [ESpawn ["readelf"; "-s"; "fw.bin"]].
Proof.
  intros run. split; [vm_compute; reflexivity|].
  assert (Hrun : run = (Ok (returned [] run.1), run.2))
    by (vm_compute; reflexivity).
  assert (Hne : returned [] run.1 <> [])
    by (intros E; apply (f_equal length) in E; vm_compute in E;
        discriminate E).
  destruct (extract_all_symbols_take_precedence
              (FunctionExtractor.mk true true) "fw.bin"
              (Sim.init sim_host_with_symbols) run.2 (returned [] run.1)
              Hrun Hne) as (Hall & _ & Hnh & Htr).
  split; [exact Hall | split; [exact Hnh | exact Htr]].
Defined.

(** C3 as stated fails: on a stripped binary the record found at
    offset 1 has provenance ['heuristic'] and the numeric size 0. *)
Lemma heuristic_size_is_numeric_zero :
  let run :=
    FunctionExtractor.extract_all (FunctionExtractor.mk false false)
      "fw.bin" (Sim.init sim_host_stripped) in
  exists f rest,
    run.1 = Ok (f :: rest)
    /\ f !! "source" = Some (Atom (AStr "heuristic"))
    /\ f !! "address" = Some (Atom (AInt 1))
    /\ f !! "size" = Some (Atom (AInt 0)).
Proof.
  intros run.
  exists (FunctionExtractor.function_dict 1 0 "sub_1" "heuristic"),
         [FunctionExtractor.function_dict 5 0 "sub_5" "heuristic"].
  split; [vm_compute; reflexivity | by repeat split].
Qed.

Lemma heuristic_functions_carry_size_zero_witness :
  exists fs st',
    FunctionExtractor.extract_all (FunctionExtractor.mk false false)
      "fw.bin" (Sim.init sim_host_stripped) = (Ok fs, st')
    /\ Forall (fun f => from_heuristic f ->
                        f !! "size" = Some (Atom (AInt 0))) fs.
Proof.
  exact (proj2 (heuristic_functions_carry_size_zero
                  (FunctionExtractor.mk false false) "fw.bin"
                  (Sim.init sim_host_stripped))).
Defined.

(** ** library_manager.py *)

Section LibraryManagerProps.
Context {W : Type} `{OS W}.
Import LibraryManager.

Lemma call_run {A} (ev : event) (op : W -> result A * W) (st : state W) :
  call ev op st
  = ((op (world st)).1, mkState (op (world st)).2 (trace st ++ [ev])%list).
Proof. unfold call. by destruct (op (world st)). Qed.

Lemma download_file_run self url st r st1 :
  _download_file self url st = (r, st1) ->
  exists dest,
    trace st1 = (trace st ++ [EDownload url dest])%list
    /\ (forall a, r = Ok a -> PathLib.to_str a = dest).
Proof.
  unfold _download_file, mbind, M_bind, bind. rewrite call_run.
  destruct (http_download _ _ _) as [[[]|e] w1]; simpl;
    intros [= <- <-]; eexists; (split; [reflexivity|]).
  - by intros a [= <-].
  - done.
Qed.

(** [_extract_archive] neither fetches nor deletes anything. *)
Lemma extract_archive_run self archive extract_to st r st2 :
  _extract_archive self archive extract_to st = (r, st2) ->
  exists evs,
    trace st2 = (trace st ++ evs)%list
    /\ Forall (fun ev => is_download ev = false /\ is_unlink ev = false) evs.
Proof.
  unfold _extract_archive, mbind, M_bind, bind. rewrite call_run.
  destruct (mkdir_p _ _) as [[[]|e] w1]; simpl.
  - destruct (_ || _).
    + rewrite call_run. simpl. intros [= <- <-]. eexists [_; _].
      rewrite <- app_assoc. split; [reflexivity|]. by repeat constructor.
    + destruct (bool_decide _).
      * rewrite call_run. simpl. intros [= <- <-]. eexists [_; _].
        rewrite <- app_assoc. split; [reflexivity|]. by repeat constructor.
      * intros [= <- <-]. eexists [_]. split; [reflexivity|].
        by repeat constructor.
  - intros [= <- <-]. eexists [_]. split; [reflexivity|].
    by repeat constructor.
Qed.

Lemma downloads_app tr1 tr2 :
  downloads (tr1 ++ tr2) = downloads tr1 + downloads tr2.
Proof. unfold downloads. by rewrite List.filter_app, length_app. Qed.

Lemma downloads_none evs :
  Forall (fun ev => is_download ev = false /\ is_unlink ev = false) evs ->
  downloads evs = 0.
Proof.
  unfold downloads. induction 1 as [|ev evs [Hd _] _ IH]; [done|].
  simpl. by rewrite Hd.
Qed.

Lemma unlink_not_in evs p :
  Forall (fun ev => is_download ev = false /\ is_unlink ev = false) evs ->
  EUnlink p ∉ evs.
Proof.
  intros Hall Hin. rewrite Forall_forall in Hall.
  by destruct (Hall _ Hin) as [_ ?].
Qed.

(** What [get_library] does on a cache miss with a URL, once the
    download has returned. *)
Lemma get_library_after_download self name version url st archive st1 :
  path_exists (PathLib.to_str (lib_dir_of self name version)) (world st)
  = false ->
  Py.truthy_opt url = true ->
  _download_file self (default "" url) st = (Ok archive, st1) ->
  get_library self name version url st
  = (_extract_archive self archive
       (PathLib.parent (lib_dir_of self name version));;
     call (EUnlink (PathLib.to_str archive))
       (unlink (PathLib.to_str archive));;
     mret (PathLib.to_str (lib_dir_of self name version))) st1.
Proof.
  intros Hmiss Hurl Hdl. unfold get_library.
  unfold mbind at 1, M_bind at 1, bind at 1, query. rewrite Hmiss, Hurl.
  by erewrite bind_ok by exact Hdl.
Qed.

(** C9: on a cache miss with a URL, after the download, [get_library]
    calls [unlink] on the archive exactly when [_extract_archive] returned
    normally. When the extraction raised, [get_library] raises the same
    exception and leaves the run as the extraction left it: nothing is
    deleted. *)
Theorem archive_unlinked_iff_extraction_succeeds
    (self : LibraryManager.t) (name : string) (version url : option string)
    (st st1 st2 : state W) (archive : PathLib.Path) (r : result unit) :
  path_exists (PathLib.to_str (lib_dir_of self name version)) (world st)
  = false ->
  Py.truthy_opt url = true ->
  _download_file self (default "" url) st = (Ok archive, st1) ->
  _extract_archive self archive
    (PathLib.parent (lib_dir_of self name version)) st1 = (r, st2) ->
  exists r' st3 evs,
    get_library self name version url st = (r', st3)
    /\ trace st3 = (trace st1 ++ evs)%list
    /\ (EUnlink (PathLib.to_str archive) ∈ evs <-> r = Ok tt)
    /\ (forall e, r = Raise e ->
          r' = Raise e /\ st3 = st2 /\ forall p, EUnlink p ∉ evs)
    /\ (r = Ok tt ->
          world st3 = (unlink (PathLib.to_str archive) (world st2)).2
          /\ r' = match (unlink (PathLib.to_str archive) (world st2)).1 with
                  | Ok _ => Ok (PathLib.to_str (lib_dir_of self name version))
                  | Raise e => Raise e
                  end).
Proof.
  intros Hmiss Hurl Hdl Hex.
  rewrite (get_library_after_download _ _ _ _ _ _ _ Hmiss Hurl Hdl).
  destruct (extract_archive_run _ _ _ _ _ _ Hex) as (evs & Htr & Hevs).
  destruct r as [[]|e].
  - erewrite bind_ok by exact Hex.
    unfold mbind, M_bind, bind. rewrite call_run.
    destruct (unlink _ _) as [[[]|e] w3] eqn:Hun; simpl;
      eexists _, _, (evs ++ [EUnlink (PathLib.to_str archive)])%list;
      (split; [reflexivity|]); simpl; rewrite Htr, <- app_assoc;
      (split; [reflexivity|]);
      (split; [split; [done | intros _; set_solver]|]);
      by split.
  - erewrite bind_raise by exact Hex.
    exists (Raise e), st2, evs. split; [reflexivity|]. split; [done|].
    split; [split; [|done]|split; [|done]].
    + intros Hin. by apply unlink_not_in in Hin.
    + intros e' [= <-]. repeat split. intros p. by apply unlink_not_in.
Qed.

(** C8 (as the code has it): when the first call with no prior cache
    returns and has left a tree at the path derived from name and
    version, it made exactly one download, and a second call for the same
    name and version (with any URL) returns the same path and leaves the
    run untouched: no fetch, no change to the host. *)
Theorem get_library_second_call_hits_cache
    (self : LibraryManager.t) (name : string) (version url url' : option string)
    (st st1 : state W) (p : string) :
  path_exists (PathLib.to_str (lib_dir_of self name version)) (world st)
  = false ->
  get_library self name version url st = (Ok p, st1) ->
  path_exists (PathLib.to_str (lib_dir_of self name version)) (world st1)
  = true ->
  get_library self name version url' st1 = (Ok p, st1)
  /\ downloads (trace st1) = downloads (trace st) + 1.
Proof.
  intros Hmiss Hfirst Hthere.
  assert (Hp : p = PathLib.to_str (lib_dir_of self name version)
               /\ downloads (trace st1) = downloads (trace st) + 1).
  { destruct (Py.truthy_opt url) eqn:Hurl.
    - destruct (_download_file self (default "" url) st) as [[a|e] sta] eqn:Hdl.
      + rewrite (get_library_after_download _ _ _ _ _ _ _ Hmiss Hurl Hdl)
          in Hfirst.
        apply bind_inv_ok in Hfirst as ([] & stb & Hex & Hrest).
        apply bind_inv_ok in Hrest as ([] & stc & Hun & Hret).
        injection Hret as <- <-. split; [done|].
        rewrite call_run in Hun. injection Hun as _ <-. simpl.
        apply extract_archive_run in Hex as (evs & -> & Hevs).
        apply download_file_run in Hdl as (dest & -> & _).
        rewrite !downloads_app, (downloads_none _ Hevs).
        unfold downloads. simpl. lia.
      + unfold get_library in Hfirst.
        unfold mbind at 1, M_bind at 1, bind at 1, query in Hfirst.
        rewrite Hmiss, Hurl in Hfirst.
        by erewrite bind_raise in Hfirst by exact Hdl.
    - unfold get_library in Hfirst.
      unfold mbind at 1, M_bind at 1, bind at 1, query in Hfirst.
      by rewrite Hmiss, Hurl in Hfirst. }
  destruct Hp as [-> Hcount]. split; [|done].
  unfold get_library. unfold mbind at 1, M_bind at 1, bind at 1, query.
  by rewrite Hthere.
Qed.

End LibraryManagerProps.

Lemma archive_unlinked_iff_extraction_succeeds_witness :
  let run :=
    LibraryManager.get_library sim_library_manager "lib" (Some "1.0")
      (Some mirror_url) (Sim.init sim_host_corrupt) in
  run.1 = Raise (Sim.os_error "not a readable archive")
  /\ Sim.fs (world run.2) !! "sources/lib-1.0.tar.gz"
     = Some (Sim.File archive_bytes)
  /\ EUnlink "sources/lib-1.0.tar.gz" ∉ trace run.2.
Proof.
  intros run.
  pose (archive := PathLib.of_str "sources/lib-1.0.tar.gz").
  pose (dl := LibraryManager._download_file sim_library_manager mirror_url
                (Sim.init sim_host_corrupt)).
  pose (ex := LibraryManager._extract_archive sim_library_manager archive
                (PathLib.parent
                   (LibraryManager.lib_dir_of sim_library_manager "lib"
                      (Some "1.0"))) dl.2).
  destruct (archive_unlinked_iff_extraction_succeeds sim_library_manager
              "lib" (Some "1.0") (Some mirror_url)
              (Sim.init sim_host_corrupt) dl.2 ex.2 archive ex.1)
    as (r' & st3 & evs & Hrun & Htr & _ & Hfail & _).
  - vm_compute. reflexivity.
  - reflexivity.
  - vm_compute. reflexivity.
  - apply surjective_pairing.
  - destruct (Hfail (Sim.os_error "not a readable archive"))
      as (-> & -> & Hno); [vm_compute; reflexivity|].
    fold run in Hrun. rewrite Hrun. cbn [fst snd].
    split; [reflexivity|]. split; [vm_compute; reflexivity|].
    apply (bool_decide_eq_false_1 _). vm_compute. reflexivity.
Defined.

Lemma get_library_second_call_hits_cache_witness :
  let run :=
    LibraryManager.get_library sim_library_manager "lib" (Some "1.0")
      (Some mirror_url) (Sim.init sim_host_mirror) in
  run.1 = Ok "sources/lib-1.0"
  /\ LibraryManager.get_library sim_library_manager "lib" (Some "1.0")
       None run.2 = (Ok "sources/lib-1.0", run.2)
  /\ downloads (trace run.2) = 1.
Proof.
  intros run. split; [vm_compute; reflexivity|].
  apply (get_library_second_call_hits_cache sim_library_manager "lib"
           (Some "1.0") (Some mirror_url) None (Sim.init sim_host_mirror)).
  - vm_compute. reflexivity.
  - vm_compute. reflexivity.
  - vm_compute. reflexivity.
Defined.

(** C8 as stated fails: when the archive unpacks into a directory that
    is not the cache path, the first call returns that cache path
    all the same, and the second call with the same name and version
    fetches the archive again. *)
Lemma get_library_twice_downloads_twice :
  let first :=
    LibraryManager.get_library sim_library_manager "lib" (Some "1.0")
      (Some mirror_url) (Sim.init sim_host_renamed) in
  let second :=
    LibraryManager.get_library sim_library_manager "lib" (Some "1.0")
      (Some mirror_url) first.2 in
  path_exists
    (PathLib.to_str
       (LibraryManager.lib_dir_of sim_library_manager "lib" (Some "1.0")))
    (world (Sim.init sim_host_renamed)) = false
  /\ first.1 = Ok "sources/lib-1.0"
  /\ second.1 = Ok "sources/lib-1.0"
  /\ downloads (trace first.2) = 1
  /\ downloads (trace second.2) = 2.
Proof.
  intros first second. repeat split; vm_compute; reflexivity.
Qed.

(** ** cross_compiler.py: DatasetCompiler *)

Section DatasetCompilerProps.
Context {W : Type} `{OS W}.
Import DatasetCompiler.

(** C2 (as the code has it): [compile_all] has no handler around the
    body of its loop. When the acquisition of one library raises, after
    the libraries before it were processed, [compile_all] raises that
    exception and the run stays in the state of the failure: the
    libraries after it are not processed and no metadata is written. *)
Theorem compile_all_stops_at_failed_acquisition
    (self : DatasetCompiler.t) (pre post : list lib_config)
    (lib : lib_config) (lib_name : string)
    (all_results : list (string * list (CrossCompiler.cell * binary_info)))
    (st st1 st2 : state W) (e : exn) :
  config self = (pre ++ lib :: post)%list ->
  for_each pre (compile_one_library self) [] st = (Ok all_results, st1) ->
  cfg_name lib = Some lib_name ->
  LibraryManager.get_library (library_manager self) lib_name
    (cfg_version lib) (cfg_url lib) st1 = (Raise e, st2) ->
  compile_all self st = (Raise e, st2).
Proof.
  intros Hcfg Hpre Hname Hget. unfold compile_all. rewrite Hcfg.
  apply bind_raise. rewrite for_each_app.
  erewrite bind_ok by exact Hpre. cbn [for_each].
  apply bind_raise. unfold compile_one_library. rewrite Hname.
  by apply bind_raise.
Qed.

End DatasetCompilerProps.

Lemma compile_all_stops_at_failed_acquisition_witness :
  DatasetCompiler.compile_all
    (sim_dataset_compiler [ghost_config; openssl_config])
    (Sim.init sim_host_openssl)
  = (Raise (Exn ValueError "Library ghostlib not found and no URL provided"),
     Sim.init sim_host_openssl).
Proof.
  apply (compile_all_stops_at_failed_acquisition
           (sim_dataset_compiler [ghost_config; openssl_config])
           [] [openssl_config] ghost_config "ghostlib" []
           (Sim.init sim_host_openssl) (Sim.init sim_host_openssl)).
  - reflexivity.
  - reflexivity.
  - reflexivity.
  - vm_compute. reflexivity.
Defined.

(** C2 as stated fails: with a library that cannot be acquired listed
    before openssl, [compile_all] raises without a single host call for
    openssl and without writing the metadata, although openssl alone is
    built and recorded. *)
Lemma compile_all_aborts_before_later_libraries :
  let alone :=
    DatasetCompiler.compile_all (sim_dataset_compiler [openssl_config])
      (Sim.init sim_host_openssl) in
  DatasetCompiler.compile_all
    (sim_dataset_compiler [ghost_config; openssl_config])
    (Sim.init sim_host_openssl)
  = (Raise (Exn ValueError "Library ghostlib not found and no URL provided"),
     Sim.init sim_host_openssl)
  /\ trace (Sim.init sim_host_openssl) = []
  /\ alone.1 = Ok tt
  /\ EMkdir "out/binaries/openssl" ∈ trace alone.2
  /\ EWriteJson "out/compilation_metadata.json" ∈ trace alone.2.
Proof.
  intros alone. split; [vm_compute; reflexivity|].
  split; [reflexivity|]. split; [vm_compute; reflexivity|].
  split; apply (bool_decide_eq_true_1 _); vm_compute; reflexivity.
Qed.

(** ** File names as the carrier of build provenance *)

Lemma app_assoc_str (a b c : string) : (a +:+ b) +:+ c = a +:+ (b +:+ c).
Proof. induction a as [|x a IH]; [done|]. by rewrite !app_cons, IH. Qed.

Lemma app_empty_r (a : string) : a +:+ "" = a.
Proof. induction a as [|x a IH]; [done|]. by rewrite app_cons, IH. Qed.

Lemma length_app_str (a b : string) :
  String.length (a +:+ b) = String.length a + String.length b.
Proof. induction a as [|x a IH]; [done|]. rewrite app_cons. simpl. lia. Qed.

Lemma has_char_app c (a b : string) :
  Py.has_char c (a +:+ b) = Py.has_char c a || Py.has_char c b.
Proof.
  induction a as [|x a IH]; [done|].
  rewrite app_cons. simpl. by rewrite IH, orb_assoc.
Qed.

Lemma contains_char c (s : string) :
  Py.contains (String c "") s = Py.has_char c s.
Proof.
  induction s as [|x s IH]; [done|].
  cbn [Py.contains Py.has_char Py.startswith]. rewrite IH.
  by rewrite andb_true_r, Ascii.eqb_sym.
Qed.

Lemma split_nonempty c (s : string) : Py.split c s <> [].
Proof.
  induction s as [|x s IH]; simpl; [done|].
  destruct (Ascii.eqb x c); [done|]. by destruct (Py.split c s).
Qed.

Lemma split_no_sep c (s : string) :
  Py.has_char c s = false -> Py.split c s = [s].
Proof.
  induction s as [|x s IH]; simpl; [done|].
  intros [Hx Hs]%orb_false_iff. by rewrite Hx, (IH Hs).
Qed.

Lemma split_app_sep c (a b : string) :
  Py.split c (a +:+ String c b) = (Py.split c a ++ Py.split c b)%list.
Proof.
  induction a as [|x a IH].
  - rewrite app_nil. simpl. by rewrite Ascii.eqb_refl.
  - rewrite app_cons. cbn [Py.split]. rewrite IH.
    destruct (Ascii.eqb x c); [done|].
    pose proof (split_nonempty c a). by destruct (Py.split c a).
Qed.

Lemma rfind_no_char c (s : string) :
  Py.has_char c s = false -> Py.rfind c s = None.
Proof.
  induction s as [|x s IH]; simpl; [done|].
  intros [Hx Hs]%orb_false_iff. by rewrite (IH Hs), Hx.
Qed.

Lemma rfind_last c (base suf : string) :
  Py.has_char c suf = false ->
  Py.rfind c (base +:+ String c suf) = Some (String.length base).
Proof.
  intros Hsuf. induction base as [|x base IH].
  - rewrite app_nil. simpl. by rewrite (rfind_no_char _ _ Hsuf), Ascii.eqb_refl.
  - rewrite app_cons. simpl. by rewrite IH.
Qed.

Lemma take_app_length (a b : string) : Py.take (String.length a) (a +:+ b) = a.
Proof.
  induction a as [|x a IH].
  - rewrite app_nil. by destruct b.
  - rewrite app_cons. simpl. by rewrite IH.
Qed.

(** [stem] strips the extension of [<base>.bin]. *)
Lemma stem_bin (p : PathLib.Path) (base : string) :
  PathLib.name p = base +:+ ".bin" -> base <> "" -> PathLib.stem p = base.
Proof.
  intros Hname Hbase. unfold PathLib.stem. rewrite Hname.
  change (base +:+ ".bin") with (base +:+ String "." "bin").
  rewrite rfind_last by reflexivity.
  rewrite length_app_str. simpl String.length.
  destruct base as [|x base]; [done|]. simpl String.length.
  replace (0 <? S (String.length base))%nat with true
    by (symmetry; apply Nat.ltb_lt; lia).
  replace (S (String.length base) <? S (String.length base) + 4 - 1)%nat
    with true by (symmetry; apply Nat.ltb_lt; lia).
  cbn [andb].
  change (S (String.length base)) with (String.length (String x base)).
  apply take_app_length.
Qed.

(** *** The name of a joined path *)

Lemma drop_leading_slash (d f s' : string) :
  dir_prefix d -> Py.has_char "/" f = false ->
  d +:+ f = String "/" s' ->
  exists d', s' = d' +:+ f /\ dir_prefix d'.
Proof.
  intros [-> | [d0 ->]] Hf Heq.
  - rewrite app_nil in Heq. subst f. simpl in Hf. done.
  - destruct d0 as [|x d0].
    + rewrite app_nil in Heq. change ("/" +:+ f) with (String "/" f) in Heq.
      injection Heq as <-. exists "". split; [done | by left].
    + rewrite !app_cons in Heq. injection Heq as _ <-.
      exists (d0 +:+ "/"). split; [done | right; by exists d0].
Qed.

Lemma splitroot_rel (d f : string) :
  dir_prefix d -> Py.has_char "/" f = false ->
  exists d', (PathLib.splitroot (d +:+ f)).2 = d' +:+ f /\ dir_prefix d'.
Proof.
  intros Hd Hf. destruct (d +:+ f) as [|c1 s1] eqn:E1.
  { exists d. by rewrite E1. }
  destruct (Ascii.eqb_spec c1 "/") as [-> | Hc1]; cycle 1.
  { exists d. rewrite E1. split; [|done].
    destruct c1 as [[] [] [] [] [] [] [] []]; done. }
  destruct (drop_leading_slash _ _ _ Hd Hf E1) as (d1 & -> & Hd1).
  destruct (d1 +:+ f) as [|c2 s2] eqn:E2.
  { exists d1. by rewrite E2. }
  destruct (Ascii.eqb_spec c2 "/") as [-> | Hc2]; cycle 1.
  { exists d1. rewrite E2. split; [|done].
    destruct c2 as [[] [] [] [] [] [] [] []]; done. }
  destruct (drop_leading_slash _ _ _ Hd1 Hf E2) as (d2 & -> & Hd2).
  destruct (d2 +:+ f) as [|c3 s3] eqn:E3.
  { exists d2. by rewrite E3. }
  destruct (Ascii.eqb_spec c3 "/") as [-> | Hc3].
  - exists d1. by rewrite E2.
  - exists d2. rewrite E3. split; [|done].
    destruct c3 as [[] [] [] [] [] [] [] []]; done.
Qed.

Lemma join_snoc sep (l : list string) (f : string) :
  Py.join sep (l ++ [f])%list
  = match l with [] => f | _ => Py.join sep l +:+ sep +:+ f end.
Proof.
  induction l as [|x l IH]; [done|].
  rewrite <- app_comm_cons. destruct l as [|y l].
  - reflexivity.
  - change (Py.join sep (x :: (y :: l) ++ [f])%list)
      with (x +:+ sep +:+ Py.join sep ((y :: l) ++ [f])%list).
    rewrite IH.
    change (Py.join sep (x :: y :: l))
      with (x +:+ sep +:+ Py.join sep (y :: l)).
    by rewrite !app_assoc_str.
Qed.

Lemma root_of_str (s : string) :
  PathLib.root (PathLib.of_str s) = ""
  \/ PathLib.root (PathLib.of_str s) = "/"
  \/ PathLib.root (PathLib.of_str s) = "//".
Proof.
  unfold PathLib.of_str.
  destruct (PathLib.splitroot s) as [rt rel] eqn:E. simpl.
  assert (Hrt : rt = (PathLib.splitroot s).1) by by rewrite E.
  rewrite Hrt. clear.
  destruct s as [|c1 s]; [by left|].
  destruct (Ascii.eqb_spec c1 "/") as [-> | Hc1]; cycle 1.
  { left. destruct c1 as [[] [] [] [] [] [] [] []]; done. }
  destruct s as [|c2 s]; [by right; left|].
  destruct (Ascii.eqb_spec c2 "/") as [-> | Hc2]; cycle 1.
  { right; left. destruct c2 as [[] [] [] [] [] [] [] []]; done. }
  destruct s as [|c3 s]; [by right; right|].
  destruct (Ascii.eqb_spec c3 "/") as [-> | Hc3].
  - by right; left.
  - right; right. destruct c3 as [[] [] [] [] [] [] [] []]; done.
Qed.

Lemma filter_keep_last (P : string -> Prop) `{forall x, Decision (P x)}
    (l : list string) (f : string) :
  P f -> List.last (filter P (l ++ [f])%list) "" = f.
Proof.
  intros Hf. rewrite filter_app, filter_cons_True, filter_nil by done.
  apply List.last_last.
Qed.

(** The last component of a path string is its name. *)
Lemma name_of_str (d f : string) :
  dir_prefix d -> Py.has_char "/" f = false -> f <> "" -> f <> "." ->
  PathLib.name (PathLib.of_str (d +:+ f)) = f.
Proof.
  intros Hd Hf Hne Hdot.
  destruct (splitroot_rel d f Hd Hf) as (d' & Hrel & Hd').
  unfold PathLib.of_str, PathLib.name.
  destruct (PathLib.splitroot (d +:+ f)) as [rt rel]. simpl in *. subst rel.
  unfold PathLib.parse_tail.
  destruct Hd' as [-> | [d0 ->]].
  - rewrite app_nil, (split_no_sep _ _ Hf).
    by apply (filter_keep_last _ []).
  - rewrite app_assoc_str. change ("/" +:+ f) with (String "/" f).
    rewrite split_app_sep, (split_no_sep _ _ Hf).
    by apply filter_keep_last.
Qed.

Lemma parse_tail_single (f : string) :
  Py.has_char "/" f = false -> f <> "" -> f <> "." ->
  PathLib.parse_tail f = [f].
Proof.
  intros Hf Hne Hdot. unfold PathLib.parse_tail.
  rewrite (split_no_sep _ _ Hf). by rewrite filter_cons_True, filter_nil.
Qed.

Lemma startswith_slash (f : string) :
  Py.has_char "/" f = false -> Py.startswith "/" f = false.
Proof.
  destruct f as [|c f]; [done|]. cbn [Py.startswith Py.has_char].
  intros [Hc _]%orb_false_iff. by rewrite Ascii.eqb_sym, Hc.
Qed.

(** A file name joined to a directory is the name of the result, also
    after the round trip through [str]. *)
Lemma name_of_joined (dir f : string) :
  Py.has_char "/" f = false -> f <> "" -> f <> "." ->
  PathLib.name
    (PathLib.of_str
       (PathLib.to_str (PathLib.joinpath (PathLib.of_str dir) f))) = f.
Proof.
  intros Hf Hne Hdot.
  assert (exists d, dir_prefix d
            /\ PathLib.to_str (PathLib.joinpath (PathLib.of_str dir) f)
               = d +:+ f) as (d & Hd & ->); [|by apply name_of_str].
  unfold PathLib.joinpath. rewrite (startswith_slash _ Hf).
  rewrite (parse_tail_single _ Hf Hne Hdot).
  pose proof (root_of_str dir) as Hroot.
  destruct (PathLib.of_str dir) as [rt tl]. simpl in Hroot.
  unfold PathLib.to_str. cbn [PathLib.root PathLib.tail].
  assert (Hj : exists d, dir_prefix d
                 /\ rt +:+ Py.join "/" (tl ++ [f]) = d +:+ f).
  { rewrite join_snoc. destruct tl as [|x tl].
    - exists rt. split; [|done].
      destruct Hroot as [-> | [-> | ->]];
        [by left | right; by exists "" | right; by exists "/"].
    - exists (rt +:+ Py.join "/" (x :: tl) +:+ "/").
      split; [right; eexists; by rewrite <- app_assoc_str|].
      by rewrite !app_assoc_str. }
  destruct rt as [|c rt]; [|exact Hj].
  destruct (tl ++ [f])%list eqn:E; [by destruct tl | exact Hj].
Qed.

(** The four fields that [label_function] reads back from the name of
    a binary, when no field holds the separator. *)
Lemma filename_parts_of_binary (dir lib fn arch optc : string) :
  Py.has_char "_" lib = false -> Py.has_char "/" lib = false ->
  Py.has_char "_" fn = false -> Py.has_char "/" fn = false ->
  Py.has_char "_" arch = false -> Py.has_char "/" arch = false ->
  Py.has_char "_" optc = false -> Py.has_char "/" optc = false ->
  AutoLabeler.filename_parts
    (PathLib.to_str
       (PathLib.joinpath (PathLib.of_str dir)
          (lib +:+ "_" +:+ fn +:+ "_" +:+ arch +:+ "_" +:+ optc +:+ ".bin")))
  = [lib; fn; arch; optc].
Proof.
  intros Hl1 Hl2 Hf1 Hf2 Ha1 Ha2 Ho1 Ho2.
  set (base := lib +:+ "_" +:+ fn +:+ "_" +:+ arch +:+ "_" +:+ optc).
  assert (Hfile : lib +:+ "_" +:+ fn +:+ "_" +:+ arch +:+ "_" +:+ optc
                    +:+ ".bin" = base +:+ ".bin").
  { unfold base. by rewrite !app_assoc_str. }
  rewrite Hfile.
  assert (Hus : Py.has_char "_" base = true).
  { unfold base. rewrite has_char_app. apply orb_true_iff. by right. }
  assert (Hbase : base <> "") by (intros E; by rewrite E in Hus).
  assert (Hslash : Py.has_char "/" (base +:+ ".bin") = false).
  { unfold base. rewrite !has_char_app, Hl2, Hf2, Ha2, Ho2. reflexivity. }
  unfold AutoLabeler.filename_parts.
  rewrite (stem_bin _ base); [| |done].
  - unfold base.
    change ("_" +:+ fn +:+ "_" +:+ arch +:+ "_" +:+ optc)
      with (String "_" (fn +:+ "_" +:+ arch +:+ "_" +:+ optc)).
    rewrite split_app_sep, (split_no_sep _ _ Hl1).
    change ("_" +:+ arch +:+ "_" +:+ optc)
      with (String "_" (arch +:+ "_" +:+ optc)).
    rewrite split_app_sep, (split_no_sep _ _ Hf1).
    change ("_" +:+ optc) with (String "_" optc).
    by rewrite split_app_sep, (split_no_sep _ _ Ha1), (split_no_sep _ _ Ho1).
  - apply name_of_joined; [done | |].
    + destruct base; [done | by rewrite app_cons].
    + intros E. assert (Hd : Py.has_char "_" (base +:+ ".bin") = true).
      { by rewrite has_char_app, Hus. }
      by rewrite E in Hd.
Qed.

Lemma catalog_names_have_no_separator (arch opt : string) :
  is_Some (ODict.get arch CrossCompiler.ARCHITECTURES) ->
  opt ∈ CrossCompiler.OPTIMIZATION_LEVELS ->
  Py.has_char "_" arch = false /\ Py.has_char "/" arch = false
  /\ Py.has_char "_" (Py.lower (Py.remove_char "-" opt)) = false
  /\ Py.has_char "/" (Py.lower (Py.remove_char "-" opt)) = false.
Proof.
  intros Harch Hopt.
  assert (Ha : arch ∈ map fst CrossCompiler.ARCHITECTURES).
  { destruct Harch as [cfg Hcfg]. revert Hcfg.
    induction CrossCompiler.ARCHITECTURES as [|[k v] l IH]; simpl; [done|].
    case_decide as Hk; [subst; intros _; apply list_elem_of_here|].
    intros Hl. apply list_elem_of_further. by apply IH. }
  assert (Hall : Forall (fun a => Py.has_char "_" a = false
                                  /\ Py.has_char "/" a = false)
                   (map fst CrossCompiler.ARCHITECTURES))
    by (repeat constructor).
  assert (Hopts : Forall (fun o =>
                     Py.has_char "_" (Py.lower (Py.remove_char "-" o)) = false
                     /\ Py.has_char "/" (Py.lower (Py.remove_char "-" o))
                        = false)
                   CrossCompiler.OPTIMIZATION_LEVELS)
    by (repeat constructor).
  rewrite Forall_forall in Hall, Hopts.
  destruct (Hall _ Ha), (Hopts _ Hopt). done.
Qed.

(** *** The dictionary built by [compile_library] *)

Lemma odict_get_elem {K V} `{EqDecision K} (k : K) (v : V)
    (d : list (K * V)) :
  ODict.get k d = Some v -> (k, v) ∈ d.
Proof.
  induction d as [|[k0 v0] d IH]; simpl; [done|].
  case_decide as Hk.
  - intros [= ->]. subst. apply list_elem_of_here.
  - intros Hd. apply list_elem_of_further. by apply IH.
Qed.

Lemma odict_set_elem {K V} `{EqDecision K} (k k' : K) (v v' : V)
    (d : list (K * V)) :
  (k', v') ∈ ODict.set k v d -> (k', v') = (k, v) \/ (k', v') ∈ d.
Proof.
  induction d as [|[k0 v0] d IH]; simpl.
  - intros ->%list_elem_of_singleton. by left.
  - case_decide as Hk.
    + intros [->|Hin]%elem_of_cons; [by left|].
      right. by apply list_elem_of_further.
    + intros [->|Hin]%elem_of_cons.
      * right. apply list_elem_of_here.
      * destruct (IH Hin) as [->|Hd]; [by left|].
        right. by apply list_elem_of_further.
Qed.

Lemma for_each_inv {W A B} (I : B -> Prop) (l : list A)
    (body : B -> A -> M W B) :
  (forall acc x st acc' st',
      x ∈ l -> I acc -> body acc x st = (Ok acc', st') -> I acc') ->
  forall acc st r st',
    I acc -> for_each l body acc st = (Ok r, st') -> I r.
Proof.
  induction l as [|x l IH]; intros Hbody acc st r st' Hacc; simpl.
  - by intros [= <- <-].
  - intros (acc' & st1 & Hx & Hrest)%bind_inv_ok.
    eapply IH; [| |exact Hrest].
    + intros ? ? ? ? ? Hin. apply Hbody. by apply list_elem_of_further.
    + eapply Hbody; [apply list_elem_of_here | exact Hacc | exact Hx].
Qed.

Section CompileLibraryProps.
Context {W : Type} `{OS W}.
Import CrossCompiler.

Lemma compile_file_true self source_file output_file arch opt compiler
    extra_flags (st st' : state W) :
  compile_file self source_file output_file arch opt compiler extra_flags st
  = (Ok true, st') ->
  arch ∈ available_archs self /\ is_Some (ODict.get arch ARCHITECTURES).
Proof.
  unfold compile_file. case_bool_decide as Hin; cbn [negb].
  - destruct (ODict.get arch ARCHITECTURES); [eauto | done].
  - rewrite mret_run. by intros [=].
Qed.

Lemma compile_cell_inv self library_name source_dir output_path arch opt
    results func_name (st st' : state W) results' :
  opt ∈ OPTIMIZATION_LEVELS ->
  Forall (unit_of_cell library_name output_path) results ->
  compile_cell self library_name source_dir output_path arch opt results
    func_name st = (Ok results', st') ->
  Forall (unit_of_cell library_name output_path) results'.
Proof.
  intros Hopt Hres. unfold compile_cell.
  intros ([src|] & st1 & _ & Hrest)%bind_inv_ok; cycle 1.
  { by injection Hrest as <- <-. }
  destruct (Py.truthy src); simpl in Hrest; cycle 1.
  { by injection Hrest as <- <-. }
  apply bind_inv_ok in Hrest as ([] & st2 & Hcc & Hrest); cycle 1.
  { by injection Hrest as <- <-. }
  apply compile_file_true in Hcc as [_ Harch].
  apply bind_inv_ok in Hrest as (sz & st3 & _ & Hrest).
  apply bind_inv_ok in Hrest as (digest & st4 & _ & Hrest).
  injection Hrest as <- <-.
  apply Forall_forall. intros [k u] Hin.
  apply odict_set_elem in Hin as [[= -> ->] | Hin].
  - by repeat split.
  - rewrite Forall_forall in Hres. by apply Hres.
Qed.

Lemma compile_library_entries self library_name source_dir functions
    output_dir (st st' : state W) results :
  compile_library self library_name source_dir functions output_dir st
  = (Ok results, st') ->
  Forall (unit_of_cell library_name (PathLib.of_str output_dir)) results.
Proof.
  unfold compile_library.
  intros ([] & st1 & _ & Hloop)%bind_inv_ok.
  eapply (for_each_inv _ _ _ _ _ _ _ _ _ Hloop). Unshelve.
  - intros acc arch sta acc' sta' _ Hacc.
    apply for_each_inv; [|done].
    intros acc1 opt stb acc1' stb' Hopt Hacc1.
    apply for_each_inv; [|done].
    intros acc2 fn stc acc2' stc' _ Hacc2. by apply compile_cell_inv.
  - constructor.
Qed.

End CompileLibraryProps.

Section ProvenanceProps.
Context {W : Type} `{OS W}.

(** C1 (as the code has it): for every entry of the dictionary that
    [compile_library] returns, if neither the library name nor the
    function name holds an underscore or a slash, the label that
    [label_function] derives from the entry's binary path has the
    entry's library, architecture and function name, and as optimization
    the entry's optimization level without its dash and in lower case,
    the form it has in the file name. *)
Theorem label_matches_unit_without_separator
    (self : CrossCompiler.t) (library_name source_dir output_dir : string)
    (functions : list string) (st st' : state W)
    (results : list (CrossCompiler.cell * binary_info))
    (key : CrossCompiler.cell) (u : binary_info)
    (function_info : gmap string pyval) :
  CrossCompiler.compile_library self library_name source_dir functions
    output_dir st = (Ok results, st') ->
  (key, u) ∈ results ->
  Py.contains "_" library_name = false ->
  Py.contains "/" library_name = false ->
  Py.contains "_" (function u) = false ->
  Py.contains "/" (function u) = false ->
  exists d,
    AutoLabeler.label_function (binary_path u) function_info !! "label"
    = Some (Dict d)
    /\ d !! "library" = Some (AStr (library u))
    /\ d !! "architecture" = Some (AStr (architecture u))
    /\ d !! "optimization"
       = Some (AStr (Py.lower (Py.remove_char "-" (optimization u))))
    /\ d !! "function_name" = Some (AStr (function u))
    /\ d !! "is_crypto" = Some (ABool true).
Proof.
  intros Hrun Hin Hl1 Hl2 Hf1 Hf2.
  change "_" with (String "_" "") in Hl1, Hf1.
  change "/" with (String "/" "") in Hl2, Hf2.
  rewrite contains_char in Hl1, Hl2, Hf1, Hf2.
  pose proof (compile_library_entries _ _ _ _ _ _ _ _ Hrun) as Hall.
  rewrite Forall_forall in Hall. specialize (Hall _ Hin).
  destruct key as [[arch opt] fn].
  destruct Hall as (Harch & Hopt & Hpath & Ha & Ho & Hfn & Hlib).
  rewrite Hfn in Hf1, Hf2.
  destruct (catalog_names_have_no_separator _ _ Harch Hopt)
    as (Ha1 & Ha2 & Ho1 & Ho2).
  unfold AutoLabeler.label_function. rewrite lookup_insert_eq.
  rewrite Hpath. unfold CrossCompiler.output_name.
  rewrite (filename_parts_of_binary _ _ _ _ _ Hl1 Hl2 Hf1 Hf2 Ha1 Ha2 Ho1 Ho2).
  rewrite Hlib, Ha, Ho, Hfn.
  eexists. split; [reflexivity|]. by repeat split.
Qed.

End ProvenanceProps.

Lemma label_matches_unit_without_separator_witness :
  let run :=
    CrossCompiler.compile_library sim_cross_compiler "openssl"
      "out/sources/openssl" ["HMAC"] "out/binaries/openssl"
      (Sim.init sim_host_openssl) in
  let u :=
    mkInfo "out/binaries/openssl/openssl_HMAC_x86-64_o2.bin"
      "out/sources/openssl/crypto/hmac/HMAC.c" "x86-64" "-O2" "HMAC"
      "openssl" 4 "md5:4" in
  ODict.get ("x86-64", "-O2", "HMAC") (returned [] run.1) = Some u
  /\ exists d,
       AutoLabeler.label_function (binary_path u) ∅ !! "label"
       = Some (Dict d)
       /\ d !! "library" = Some (AStr "openssl")
       /\ d !! "architecture" = Some (AStr "x86-64")
       /\ d !! "optimization" = Some (AStr "o2").
Proof.
  intros run u. split; [vm_compute; reflexivity|].
  assert (Hrun : run = (Ok (returned [] run.1), run.2))
    by (vm_compute; reflexivity).
  assert (Hin : (("x86-64", "-O2", "HMAC"), u) ∈ returned [] run.1)
    by (apply odict_get_elem; vm_compute; reflexivity).
  destruct (label_matches_unit_without_separator sim_cross_compiler
              "openssl" "out/sources/openssl" "out/binaries/openssl"
              ["HMAC"] (Sim.init sim_host_openssl) run.2
              (returned [] run.1) ("x86-64", "-O2", "HMAC") u ∅ Hrun Hin
              eq_refl eq_refl eq_refl eq_refl)
    as (d & Hd & Hlib & Harch & Hopt & _).
  exists d.
  split; [exact Hd|]. split; [exact Hlib|]. split; [exact Harch|exact Hopt].
Defined.

(** C1 as stated fails twice. The label's optimization is the
    lower-case form without the dash, which differs from the level the
    compilation unit records ([o0] against [-O0]); and for the catalog's
    function [AES_encrypt] the underscore of the name shifts the fields,
    so that the label's architecture is [encrypt] and its optimization
    [x86-64]. *)
Lemma label_disagrees_with_compilation_unit :
  let run :=
    CrossCompiler.compile_library sim_cross_compiler "openssl"
      "out/sources/openssl"
      (DatasetCompiler._get_crypto_functions "openssl")
      "out/binaries/openssl" (Sim.init sim_host_openssl) in
  let h :=
    mkInfo "out/binaries/openssl/openssl_HMAC_x86-64_o0.bin"
      "out/sources/openssl/crypto/hmac/HMAC.c" "x86-64" "-O0" "HMAC"
      "openssl" 4 "md5:4" in
  let u :=
    mkInfo "out/binaries/openssl/openssl_AES_encrypt_x86-64_o0.bin"
      "out/sources/openssl/crypto/aes/AES_encrypt.c" "x86-64" "-O0"
      "AES_encrypt" "openssl" 4 "md5:4" in
  ODict.get ("x86-64", "-O0", "HMAC") (returned [] run.1) = Some h
  /\ (exists dh,
         AutoLabeler.label_function (binary_path h) ∅ !! "label"
         = Some (Dict dh)
         /\ dh !! "optimization" = Some (AStr "o0")
         /\ optimization h = "-O0")
  /\ ODict.get ("x86-64", "-O0", "AES_encrypt") (returned [] run.1) = Some u
  /\ (exists d,
         AutoLabeler.label_function (binary_path u) ∅ !! "label"
         = Some (Dict d)
         /\ d !! "library" = Some (AStr "openssl")
         /\ d !! "architecture" = Some (AStr "encrypt")
         /\ d !! "optimization" = Some (AStr "x86-64")
         /\ architecture u = "x86-64" /\ optimization u = "-O0").
Proof.
  intros run h u.
  split; [vm_compute; reflexivity|].
  split.
  { exists (AutoLabeler.make_label
              (AutoLabeler.filename_parts (binary_path h))).
    split; [apply lookup_insert_eq|]. by repeat split. }
  split; [vm_compute; reflexivity|].
  exists (AutoLabeler.make_label
            (AutoLabeler.filename_parts (binary_path u))).
  split; [apply lookup_insert_eq|]. by repeat split.
Qed.

(** ** More on function_extractor.py *)

Section PrologueScan.
Import FunctionExtractor.

Lemma find_at_some pat d i j :
  find_at pat d i = Some j ->
  i <= j
  /\ bytes_startswith pat (drop (j - i) d) = true
  /\ forall k, k < j - i -> bytes_startswith pat (drop k d) = false.
Proof.
  revert i. induction d as [|b d IH]; intros i; simpl.
  - destruct (bytes_startswith pat []) eqn:Hs; [|done].
    intros [= <-]. rewrite Nat.sub_diag. repeat split; [lia | done | lia].
  - destruct (bytes_startswith pat (b :: d)) eqn:Hs.
    + intros [= <-]. rewrite Nat.sub_diag. repeat split; [lia | done | lia].
    + intros (Hle & Hhit & Hmiss)%IH.
      replace (j - i) with (S (j - S i)) by lia.
      repeat split; [lia | done |].
      intros [|k] Hk; [done|]. simpl. apply Hmiss. lia.
Qed.

Lemma find_at_none pat d i :
  find_at pat d i = None ->
  forall k, bytes_startswith pat (drop k d) = false.
Proof.
  revert i. induction d as [|b d IH]; intros i; simpl.
  - destruct (bytes_startswith pat []) eqn:Hs; [done|].
    intros _ k. by rewrite drop_nil.
  - destruct (bytes_startswith pat (b :: d)) eqn:Hs; [done|].
    intros Hnone [|k]; [done|]. simpl. by eapply IH.
Qed.

Lemma filter_seq_none (P : nat -> Prop) `{forall i, Decision (P i)} a n :
  (forall i, a <= i < a + n -> ~ P i) -> filter P (seq a n) = [].
Proof.
  revert a. induction n as [|n IH]; intros a Hno; [done|].
  simpl. rewrite filter_cons_False by (apply Hno; lia).
  apply IH. intros i Hi. apply Hno. lia.
Qed.

Lemma filter_seq_first (P : nat -> Prop) `{forall i, Decision (P i)} a n j :
  a <= j < a + n -> P j -> (forall i, a <= i < j -> ~ P i) ->
  filter P (seq a n) = j :: filter P (seq (S j) (a + n - S j)).
Proof.
  intros Hj HPj Hno.
  replace n with ((j - a) + S (a + n - S j)) by lia.
  rewrite seq_app, filter_app.
  rewrite filter_seq_none by (intros i Hi; apply Hno; lia).
  replace (a + (j - a)) with j by lia. simpl.
  rewrite filter_cons_True by done.
  do 3 f_equal. lia.
Qed.

(** The loop, started at [offset] with [acc] collected so far, adds
    the records of the remaining occurrences. *)
Lemma heuristic_loop_spec fuel data offset acc :
  0 < fuel -> length data < fuel + offset ->
  heuristic_loop fuel data offset acc
  = Some (acc ++ map heuristic_record
                   (filter (prologue_at data)
                      (seq offset (length data - offset))))%list.
Proof.
  revert offset acc.
  induction fuel as [|fuel IH]; intros offset acc Hpos Hlen; [lia|].
  cbn [heuristic_loop].
  destruct (bytes_find prologue_pattern data offset) as [j|] eqn:Hj.
  - pose proof (bytes_find_bounds _ _ _ _ Hj) as [Hoj Hjl]. simpl in Hjl.
    unfold bytes_find in Hj.
    destruct (length data <? offset)%nat eqn:Hlt; [done|].
    apply find_at_some in Hj as (_ & Hhit & Hmiss).
    rewrite drop_drop in Hhit.
    replace (offset + (j - offset)) with j in Hhit by lia.
    rewrite IH by lia.
    rewrite (filter_seq_first _ offset (length data - offset) j);
      [| lia | exact Hhit |].
    + replace (j + 1) with (S j) by lia.
      replace (offset + (length data - offset) - S j)
        with (length data - S j) by lia.
      rewrite <- app_assoc. reflexivity.
    + intros i Hi. unfold prologue_at.
      specialize (Hmiss (i - offset) ltac:(lia)).
      rewrite drop_drop in Hmiss.
      replace (offset + (i - offset)) with i in Hmiss by lia.
      by rewrite Hmiss.
  - unfold bytes_find in Hj.
    destruct (length data <? offset)%nat eqn:Hlt.
    + apply Nat.ltb_lt in Hlt.
      replace (length data - offset) with 0 by lia.
      by rewrite app_nil_r.
    + rewrite filter_seq_none; [by rewrite app_nil_r|].
      intros i Hi. unfold prologue_at.
      pose proof (find_at_none _ _ _ Hj (i - offset)) as Hmiss.
      apply Nat.ltb_ge in Hlt.
      rewrite drop_drop in Hmiss.
      replace (offset + (i - offset)) with i in Hmiss by lia.
      by rewrite Hmiss.
Qed.

End PrologueScan.

Section ExtractorBehaviour.
Context {W : Type} `{OS W}.
Import FunctionExtractor.

(** X1: when the binary can be read, [_extract_heuristic] returns one
    record for every offset at which the bytes 55 89 e5 occur, in
    ascending order of the offsets, each with the offset as address,
    size 0 and the name [sub_<offset in hex>]; its only host call is
    the read. *)
Theorem heuristic_scan_reports_every_prologue
    (self : FunctionExtractor.t) (binary_path : string) (st : state W)
    (data : list Byte.byte) :
  read_bytes binary_path (world st) = Ok data ->
  _extract_heuristic self binary_path st
  = (Ok (map heuristic_record (prologue_offsets data)),
     mkState (world st) (trace st ++ [EReadBytes binary_path])%list).
Proof.
  intros Hread.
  unfold _extract_heuristic, try_except, mbind, M_bind, bind.
  rewrite call_run. cbn -[heuristic_loop]. rewrite Hread.
  cbn -[heuristic_loop].
  rewrite heuristic_loop_spec by lia. rewrite Nat.sub_0_r. reflexivity.
Qed.

(** X2: [extract_all] never raises, whatever [readelf] and the file
    system do; it makes at most two host calls, the [readelf] process
    and then the read of the binary, and every record it returns is
    marked as coming from the symbols or from the heuristic. *)
Theorem extract_all_never_raises
    (self : FunctionExtractor.t) (binary_path : string) (st : state W) :
  exists fs st' evs,
    extract_all self binary_path st = (Ok fs, st')
    /\ trace st' = (trace st ++ evs)%list
    /\ (exists spawn read,
           evs = (spawn ++ read)%list
           /\ (spawn = [] \/ spawn = [ESpawn ["readelf"; "-s"; binary_path]])
           /\ (read = [] \/ read = [EReadBytes binary_path]))
    /\ Forall (fun f => from_symbols f \/ from_heuristic f) fs.
Proof.
  unfold extract_all.
  assert (Hsym : exists syms st1 spawn,
             _extract_from_symbols self binary_path st = (Ok syms, st1)
             /\ trace st1 = (trace st ++ spawn)%list
             /\ (spawn = []
                 \/ spawn = [ESpawn ["readelf"; "-s"; binary_path]])
             /\ Forall from_symbols syms).
  { destruct (extract_from_symbols_run self binary_path st)
      as (syms & st1 & Hrun & Hall & _).
    exists syms, st1. revert Hrun. unfold _extract_from_symbols.
    destruct (readelf_available self); simpl.
    - destruct (subprocess_run _ _ _) as [p w'].
      exists [ESpawn ["readelf"; "-s"; binary_path]].
      assert (trace st1
              = (trace st ++ [ESpawn ["readelf"; "-s"; binary_path]])%list)
        by (destruct p as [rc ? ?|?]; [destruct (rc =? 0)%Z|];
            simpl in Hrun; by injection Hrun as _ <-).
      split; [|by repeat split; auto].
      destruct p as [rc ? ?|?]; [destruct (rc =? 0)%Z|]; simpl in *;
        injection Hrun as <- <-; reflexivity.
    - intros [= <- <-]. exists []. rewrite app_nil_r. by repeat split; auto. }
  destruct Hsym as (syms & st1 & spawn & Hrun & Htr & Hspawn & Hall).
  erewrite bind_ok by exact Hrun.
  destruct syms as [|f syms].
  - unfold _extract_heuristic, try_except, mbind, M_bind, bind.
    rewrite call_run. cbn -[heuristic_loop].
    destruct (read_bytes binary_path (world st1)) as [data|e];
      cbn -[heuristic_loop].
    + eexists _, _, (spawn ++ [EReadBytes binary_path])%list.
      split; [reflexivity|]. cbn [trace]. rewrite Htr, <- app_assoc.
      split; [done|]. split; [exists spawn, [EReadBytes binary_path]; auto|].
      rewrite heuristic_loop_spec by lia. cbn [default].
      apply Forall_map, Forall_forall. intros i _. by right.
    + eexists _, _, (spawn ++ [EReadBytes binary_path])%list.
      split; [reflexivity|]. cbn [trace]. rewrite Htr, <- app_assoc.
      split; [done|]. split; [exists spawn, [EReadBytes binary_path]; auto|].
      constructor.
  - eexists _, _, spawn. split; [reflexivity|]. split; [done|].
    split; [exists spawn, []; rewrite app_nil_r; auto|].
    eapply Forall_impl; [exact Hall|]. by left.
Qed.

(** X3: when [readelf] is not installed, [extract_all] starts no
    process and returns what the heuristic scan returns; when the
    [readelf] process exits with a non-zero code or raises (a timeout,
    for one), its result is that of the heuristic scan run afterwards. *)
Theorem extract_all_falls_back_to_heuristic
    (self : FunctionExtractor.t) (binary_path : string) (st : state W) :
  (readelf_available self = false ->
   extract_all self binary_path st = _extract_heuristic self binary_path st)
  /\ (forall p w',
         readelf_available self = true ->
         subprocess_run ["readelf"; "-s"; binary_path] 30 (world st)
         = (p, w') ->
         (forall stdout stderr, p <> Completed 0 stdout stderr) ->
         extract_all self binary_path st
         = _extract_heuristic self binary_path
             (mkState w'
                (trace st ++ [ESpawn ["readelf"; "-s"; binary_path]])%list)).
Proof.
  split.
  - intros Hno. unfold extract_all, _extract_from_symbols. rewrite Hno.
    cbn [negb]. unfold mbind at 1, M_bind at 1, bind at 1. rewrite mret_run.
    unfold mbind, M_bind, bind.
    by destruct (_extract_heuristic self binary_path st) as [[?|?] ?].
  - intros p w' Hyes Hrun Hfail.
    unfold extract_all, _extract_from_symbols. rewrite Hyes. cbn [negb].
    unfold mbind at 1, M_bind at 1, bind at 1. rewrite Hrun.
    assert (Hempty :
              match p with
              | Completed returncode stdout _ =>
                  if negb (returncode =? 0)%Z
                  then (Ok ([] : list (gmap string pyval)),
                        mkState w'
                          (trace st
                           ++ [ESpawn ["readelf"; "-s"; binary_path]])%list)
                  else (Ok (omap parse_symbol_line
                              (Py.split (ascii_of_nat 10) stdout)),
                        mkState w'
                          (trace st
                           ++ [ESpawn ["readelf"; "-s"; binary_path]])%list)
              | ProcRaises _ =>
                  (Ok [], mkState w'
                            (trace st
                             ++ [ESpawn ["readelf"; "-s"; binary_path]])%list)
              end
              = (Ok [], mkState w'
                          (trace st
                           ++ [ESpawn ["readelf"; "-s"; binary_path]])%list)).
    { destruct p as [rc out err|e]; [|done].
      destruct (rc =? 0)%Z eqn:Hrc; [|done].
      apply Z.eqb_eq in Hrc. subst rc. by destruct (Hfail out err). }
    rewrite Hempty. unfold mbind, M_bind, bind.
    by destruct (_extract_heuristic self binary_path _) as [[?|?] ?].
Qed.

End ExtractorBehaviour.

Lemma heuristic_scan_reports_every_prologue_witness :
  FunctionExtractor._extract_heuristic (FunctionExtractor.mk false false)
    "fw.bin" (Sim.init sim_host_stripped)
  = (Ok [heuristic_record 1; heuristic_record 5],
     mkState sim_host_stripped [EReadBytes "fw.bin"]).
Proof.
  apply (heuristic_scan_reports_every_prologue
           (FunctionExtractor.mk false false) "fw.bin"
           (Sim.init sim_host_stripped) prologue_bytes).
  reflexivity.
Defined.

Lemma extract_all_falls_back_to_heuristic_witness :
  FunctionExtractor.extract_all (FunctionExtractor.mk false false)
    "fw.bin" (Sim.init sim_host_stripped)
  = FunctionExtractor._extract_heuristic (FunctionExtractor.mk false false)
      "fw.bin" (Sim.init sim_host_stripped).
Proof.
  apply (proj1 (extract_all_falls_back_to_heuristic
                  (FunctionExtractor.mk false false) "fw.bin"
                  (Sim.init sim_host_stripped))).
  reflexivity.
Defined.

(** ** More on cross_compiler.py: CrossCompiler *)

Section CompileFileBehaviour.
Context {W : Type} `{OS W}.
Import CrossCompiler.

Lemma catalog_cc_nonempty arch cfg :
  ODict.get arch ARCHITECTURES = Some cfg -> cc cfg <> "".
Proof.
  unfold ARCHITECTURES. simpl.
  repeat (case_decide; [by intros [= <-]|]). done.
Qed.

Lemma filter_truthy_no_empty (l : list string) :
  "" ∉ List.filter Py.truthy l.
Proof.
  intros Hin. apply list_elem_of_In, List.filter_In in Hin as [_ Ht]. done.
Qed.

(** X4: for an available architecture of the catalog, [compile_file]
    starts exactly one process, with a 300 second timeout, and does not
    raise: it returns [True] when the process completed with exit code
    0 and [False] when it completed with another code or raised (a
    timeout, for one). The command line holds no empty token, and its
    first token is the catalog's compiler, or [clang] when [clang] was
    asked for on x86 or x86-64. *)
Theorem compile_file_runs_one_process
    (self : CrossCompiler.t) (source_file output_file : string)
    (architecture optimization compiler : string)
    (extra_flags : option (list string)) (st : state W)
    (arch_config : arch_config) :
  architecture ∈ available_archs self ->
  ODict.get architecture ARCHITECTURES = Some arch_config ->
  exists cmd,
    ("" ∉ cmd)
    /\ hd "" cmd
       = (if bool_decide (compiler = "clang")
             && bool_decide (architecture ∈ ["x86"; "x86-64"])
          then "clang" else cc arch_config)
    /\ compile_file self source_file output_file architecture optimization
         compiler extra_flags st
       = (Ok match (subprocess_run cmd 300 (world st)).1 with
             | Completed returncode _ _ => (returncode =? 0)%Z
             | ProcRaises _ => false
             end,
          mkState (subprocess_run cmd 300 (world st)).2
            (trace st ++ [ESpawn cmd])%list).
Proof.
  intros Havail Hcfg. unfold compile_file.
  rewrite (bool_decide_eq_true_2 _ Havail). cbn [negb]. rewrite Hcfg.
  cbv zeta.
  match goal with |- context [ESpawn ?c] => exists c end.
  split; [|split; [reflexivity|]].
  - intros [Hcc | Hfl]%elem_of_cons.
    + destruct (_ && _); [done|].
      by apply (catalog_cc_nonempty _ _ Hcfg).
    + by apply filter_truthy_no_empty in Hfl.
  - destruct (subprocess_run _ _ _) as [[rc out err|e] w']; simpl;
      [by destruct (rc =? 0)%Z | done].
Qed.


Lemma check_toolchains_loop (l : list (string * arch_config))
    (acc : list string) (st : state W) :
  for_each l
    (fun available '(arch, config) =>
       found ← query (which (cc config));
       if (found : bool) then mret (available ++ [arch])%list
       else mret available)
    acc st
  = (Ok (acc ++ map fst
                  (List.filter (fun ac => which (cc ac.2) (world st)) l))%list,
     st).
Proof.
  revert acc. induction l as [|[arch cfg] l IH]; intros acc.
  - simpl. by rewrite app_nil_r.
  - cbn [for_each List.filter]. unfold mbind at 1, M_bind at 1, bind at 1.
    unfold mbind at 1, M_bind at 1, bind at 1, query. cbn [snd].
    destruct (which (cc cfg) (world st)).
    + rewrite mret_run, IH. cbn [map fst]. by rewrite <- app_assoc.
    + by rewrite mret_run, IH.
Qed.

(** X6: [_check_toolchains] changes nothing on the host. It returns the
    architectures of the catalog whose compiler is found on [PATH], in
    the order of the catalog, and raises [CompilationError] exactly when
    there is none. *)
Theorem check_toolchains_lists_found_compilers (st : state W) :
  _check_toolchains st
  = match map fst (List.filter (fun ac => which (cc ac.2) (world st))
                     ARCHITECTURES) with
    | [] => (Raise (Exn CompilationError
                      "No cross-compilers found! Install toolchains first."),
             st)
    | found => (Ok found, st)
    end.
Proof.
  unfold _check_toolchains. unfold mbind, M_bind, bind.
  rewrite check_toolchains_loop. cbn [app].
  by destruct (map fst _).
Qed.

(** X7: an object built by [__init__] holds only architectures of the
    catalog, each once, and x86 is among them exactly when x86-64 is
    (both are probed through [gcc]); [compile_file] on such an object
    never raises. *)
Theorem init_gives_catalog_architectures
    (workspace_dir : string) (st st' : state W) (self : CrossCompiler.t) :
  CrossCompiler.__init__ workspace_dir st = (Ok self, st') ->
  available_archs self ⊆ map fst ARCHITECTURES
  /\ NoDup (available_archs self)
  /\ ("x86" ∈ available_archs self <-> "x86-64" ∈ available_archs self)
  /\ forall source_file output_file architecture optimization compiler
            extra_flags st2,
       exists b st3,
         compile_file self source_file output_file architecture
           optimization compiler extra_flags st2 = (Ok b, st3).
Proof.
  unfold CrossCompiler.__init__.
  intros ([] & st1 & _ & Hrest)%bind_inv_ok.
  apply bind_inv_ok in Hrest as (archs & st2 & Hcheck & Hret).
  injection Hret as <- <-. cbn [available_archs].
  rewrite check_toolchains_lists_found_compilers in Hcheck.
  set (found := List.filter (fun ac => which (cc ac.2) (world st1))
                  ARCHITECTURES) in *.
  assert (Harchs : archs = map fst found).
  { destruct (map fst found); [done | by injection Hcheck as <- _]. }
  clear Hcheck. subst archs.
  assert (Hsub : map fst found ⊆ map fst ARCHITECTURES).
  { intros a (ac & -> & Hin%list_elem_of_In%List.filter_In)%list_elem_of_fmap.
    apply list_elem_of_fmap. exists ac. split; [done|].
    apply list_elem_of_In. tauto. }
  split; [exact Hsub|]. split; [|split].
  - unfold found, ARCHITECTURES. cbn [List.filter snd cc].
    repeat (destruct (which _ _)); cbn [map fst];
      apply (bool_decide_unpack _); reflexivity.
  - unfold found, ARCHITECTURES. cbn [List.filter snd cc].
    destruct (which "gcc" (world st1));
      repeat (destruct (which _ _)); cbn [map fst];
      apply (bool_decide_unpack _); reflexivity.
  - intros source_file output_file architecture optimization compiler
      extra_flags st3. unfold compile_file.
    case_bool_decide as Hin; cbn [negb]; [|by eexists _, _].
    apply Hsub in Hin.
    destruct (ODict.get architecture ARCHITECTURES) as [cfg|] eqn:Hcfg.
    + destruct (subprocess_run _ _ _) as [[rc out err|e] w'];
        [destruct (rc =? 0)%Z|]; by eexists _, _.
    + exfalso. revert Hin Hcfg. unfold ARCHITECTURES. cbn [map fst].
      rewrite !elem_of_cons, elem_of_nil.
      intros [-> | [-> | [-> | [-> | [-> | [-> | []]]]]]]; discriminate.
Qed.

End CompileFileBehaviour.

Lemma compile_file_runs_one_process_witness :
  CrossCompiler.compile_file sim_cross_compiler "src/aes.c" "out/aes.bin"
    "x86" "-O2" "clang" (Some ["-g"]) (Sim.init sim_host_gcc_only)
  = (Ok false,
     mkState sim_host_gcc_only
       [ESpawn ["clang"; "-O2"; "-m32"; "--target=i686-linux-gnu"; "-static";
                "-fno-stack-protector"; "-o"; "out/aes.bin"; "src/aes.c";
                "-g"]]).
Proof.
  destruct (compile_file_runs_one_process sim_cross_compiler "src/aes.c"
              "out/aes.bin" "x86" "-O2" "clang" (Some ["-g"])
              (Sim.init sim_host_gcc_only)
              (CrossCompiler.mkArch "gcc" "-m32" "i686-linux-gnu"
                 "Intel x86 32-bit"))
    as (cmd & _ & _ & _).
  - apply (bool_decide_unpack _). reflexivity.
  - reflexivity.
  - vm_compute. reflexivity.
Defined.


Lemma init_gives_catalog_architectures_witness :
  let run := CrossCompiler.__init__ "out/workspace"
               (Sim.init sim_host_gcc_only) in
  run.1 = Ok (CrossCompiler.mk (PathLib.of_str "out/workspace")
                ["x86"; "x86-64"])
  /\ NoDup ["x86"; "x86-64"].
Proof.
  intros run.
  assert (Hrun : run = (Ok (CrossCompiler.mk (PathLib.of_str "out/workspace")
                              ["x86"; "x86-64"]), run.2))
    by (vm_compute; reflexivity).
  split; [by rewrite Hrun|].
  exact (proj1 (proj2 (init_gives_catalog_architectures "out/workspace"
                         (Sim.init sim_host_gcc_only) run.2 _ Hrun))).
Defined.
